(** * Ai-attendance: the attendance stores and the recognition loops

    A shallow embedding of the parts of the repository that decide what is
    written to [attendance.csv], [users.csv], [tasks_local.csv] and
    [model/face_embedding.npy]:

    - [attendance_system_pro.py], [recognize_face.py] and
      [capture_faces.py] (camera loops),
    - [train_model.py] (enrollment),
    - [app.py] ([add_attendance], [load_attendance], [update_task],
      [assign_task], [task_history], [add_user], [safe_read_users],
      [login], [api_login], the camera routes),
    - [web_dashboard.py] ([load_attendance], [upload_attendance]).

    The detection and embedding libraries, the camera, the wall clock and
    the cloud client are inputs of the model: every value they hand to the
    program is a field of the input records below. *)

From Stdlib Require Import String Ascii List Bool Arith ZArith QArith Lia Sorted Permutation.
Import ListNotations.
Close Scope Q_scope.
Open Scope string_scope.
Open Scope list_scope.
Open Scope nat_scope.

(** ** pandas: cells, CSV text and row labels *)

Module Pandas.

(** A cell of an object column: missing, or text. Numeric inference of
    [pd.read_csv] is outside this model; the stores of this program hold
    names, dates and clock strings. *)
Inductive cell : Type :=
| NaN
| Str (s : string).

(** Text that [pd.read_csv] reads as missing (its default [na_values],
    with [keep_default_na=True]). *)
Definition STR_NA_VALUES : list string :=
  [ ""; "#N/A"; "#N/A N/A"; "#NA"; "-1.#IND"; "-1.#QNAN"; "-NaN"; "-nan";
    "1.#IND"; "1.#QNAN"; "<NA>"; "N/A"; "NA"; "NULL"; "NaN"; "None";
    "n/a"; "nan"; "null" ].

Definition is_na_text (s : string) : bool :=
  existsb (String.eqb s) STR_NA_VALUES.

Definition read_cell (s : string) : cell :=
  if is_na_text s then NaN else Str s.

(** [to_csv] writes a missing cell as the empty field. *)
Definition write_cell (c : cell) : string :=
  match c with
  | NaN => ""
  | Str s => s
  end.

(** Elementwise [==] against a Python string: a missing cell equals
    nothing. *)
Definition eq_str (c : cell) (s : string) : bool :=
  match c with
  | NaN => false
  | Str t => String.eqb t s
  end.

Definition isna (c : cell) : bool :=
  match c with
  | NaN => true
  | Str _ => false
  end.

(** Equality of cells as [drop_duplicates] sees it. *)
Definition cell_eqb (a b : cell) : bool :=
  match a, b with
  | NaN, NaN => true
  | Str s, Str t => String.eqb s t
  | _, _ => false
  end.

(** A data frame: rows with their index labels, in positional order. *)
Definition frame (A : Type) : Type := list (nat * A).

(** [pd.read_csv] gives the rows a RangeIndex. *)
Definition range_index {A : Type} (rows : list A) : frame A :=
  combine (seq 0 (length rows)) rows.

Definition values {A : Type} (df : frame A) : list A := map snd df.

Definition has_label {A : Type} (df : frame A) (l : nat) : bool :=
  existsb (fun p => Nat.eqb (fst p) l) df.

(** [df.loc[l] = r]: overwrite the row labelled [l], or enlarge the frame
    with a new row labelled [l] when the label is absent. *)
Definition loc_set {A : Type} (df : frame A) (l : nat) (r : A) : frame A :=
  if has_label df l
  then map (fun p => if Nat.eqb (fst p) l then (l, r) else p) df
  else df ++ [(l, r)].

(** [df.index[...]] of the rows selected by a boolean mask. *)
Definition index_where {A : Type} (mask : A -> bool) (df : frame A) : list nat :=
  map fst (filter (fun p => mask (snd p)) df).

(** [df.at[l, col] = v] through a column setter. *)
Definition at_set {A : Type} (df : frame A) (l : nat) (set : A -> A) : frame A :=
  map (fun p => if Nat.eqb (fst p) l then (fst p, set (snd p)) else p) df.

End Pandas.

(** ** datetime.now() and strftime *)

Module Clock.

Record datetime : Type := mkDatetime {
  year : nat; month : nat; day : nat;
  hour : nat; minute : nat; second : nat
}.

Definition digit (n : nat) : ascii := ascii_of_nat (48 + n mod 10).

Definition pad2 (n : nat) : string :=
  String (digit (n / 10)) (String (digit n) EmptyString).

Definition pad4 (n : nat) : string :=
  String (digit (n / 1000)) (String (digit (n / 100)) (pad2 n)).

(** [%d-%m-%Y] *)
Definition strftime_dmY (t : datetime) : string :=
  (pad2 (day t) ++ "-" ++ pad2 (month t) ++ "-" ++ pad4 (year t))%string.

(** [%I]: hour of the 12-hour clock, 01..12. *)
Definition hour12 (h : nat) : nat := (h + 11) mod 12 + 1.

(** [%p] *)
Definition am_pm (h : nat) : string := if Nat.ltb h 12 then "AM" else "PM".

(** [%I:%M %p] *)
Definition strftime_IMp (t : datetime) : string :=
  (pad2 (hour12 (hour t)) ++ ":" ++ pad2 (minute t) ++ " " ++ am_pm (hour t))%string.

(** [%I:%M:%S %p] *)
Definition strftime_IMSp (t : datetime) : string :=
  (pad2 (hour12 (hour t)) ++ ":" ++ pad2 (minute t) ++ ":" ++ pad2 (second t)
    ++ " " ++ am_pm (hour t))%string.

End Clock.

(** ** attendance.csv *)

Module Attendance.
Import Pandas.

(** One line of the file below the header [Name,Date,Time]. *)
Record line : Type := mkLine { lName : string; lDate : string; lTime : string }.

(** One row of the frame read from it. *)
Record row : Type := mkRow { Name : cell; Date : cell; Time : cell }.

Definition read_line (l : line) : row :=
  mkRow (read_cell (lName l)) (read_cell (lDate l)) (read_cell (lTime l)).

Definition write_row (r : row) : line :=
  mkLine (write_cell (Name r)) (write_cell (Date r)) (write_cell (Time r)).

Definition read_csv (f : list line) : frame row := range_index (map read_line f).

Definition to_csv (df : frame row) : list line := map write_row (values df).

(** A line as a [read_csv] / [to_csv] pair rewrites it. *)
Definition rewritten (l : line) : line := write_row (read_line l).


(** Number of lines of the file for a (name, date) pair. *)
Definition count_for (name date : string) (f : list line) : nat :=
  length (filter (fun l => String.eqb (lName l) name && String.eqb (lDate l) date) f).

End Attendance.

(** ** Floats as the loops use them *)

Module Float.

(** A float64 that is a number, or NaN (a zero-norm embedding makes the
    cosine 0/0). Numbers are carried as rationals. *)
Definition float : Type := option Q.

(** [a > b]: false when [a] is NaN. *)
Definition gt (a : float) (b : Q) : bool :=
  match a with
  | Some q => negb (Qle_bool q b)
  | None => false
  end.

(** [a <= b]: false when [a] is NaN. *)
Definition le (a : float) (b : Q) : bool :=
  match a with
  | Some q => Qle_bool q b
  | None => false
  end.

End Float.

(** ** attendance_system_pro.py *)

Module AttendanceSystemPro.
Import Pandas Attendance.

(** [0.70], as a rational. *)
Definition THRESHOLD : Q := (70 # 100)%Q.

(** What the libraries and the clock hand to the body of
    [for face in faces] for one detected face. *)
Record face : Type := mkFace {
  crop_size_zero : bool;        (* crop.size == 0 *)
  similarity : Float.float;     (* the cosine computed from the embedding *)
  date_now : Clock.datetime;    (* first datetime.now() *)
  time_now : Clock.datetime;    (* second datetime.now() *)
  cloud_raises : bool           (* db.collection(...).add(...) raises *)
}.

(** One iteration of [while True]: the result of [cap.read()] ([None]
    when the read fails, so that [frame] is None) and whether [q] is
    pressed at [cv2.waitKey]. *)
Record frame_input : Type := mkFrame {
  grabbed : option (list face);
  key_q : bool
}.

Inductive event : Type :=
| CsvWritten (l : line)
| CloudAdded (l : line)
| CloudErrorPrinted (l : line).

Record world : Type := mkWorld {
  csv : list line;      (* attendance.csv below its header *)
  cloud : list line;    (* documents of the attendance collection *)
  trace : list event    (* writes and error prints, oldest first *)
}.

Inductive status : Type :=
| Streaming    (* still inside while True *)
| Released     (* left the loop; cap.release() has run *)
| Crashed.     (* an exception left the script; cap.release() has not run *)

Definition classify (s : Float.float) : string :=
  if Float.gt s THRESHOLD then "Aman" else "Unknown".

Definition is_write_for (date : string) (e : event) : bool :=
  match e with
  | CsvWritten l => String.eqb (lDate l) date
  | _ => false
  end.

(** Number of CSV writes of a record dated [date] in a trace. *)
Definition writes_for (date : string) (tr : list event) : nat :=
  length (filter (is_write_for date) tr).


Definition already_marked (df : frame row) (date : string) : bool :=
  existsb (fun r => eq_str (Name r) "Aman" && eq_str (Date r) date) (values df).

Definition process_face (use_firebase : bool) (w : world) (f : face) : world :=
  if crop_size_zero f then w
  else
    let name := classify (similarity f) in
    if String.eqb name "Aman" then
      let date := Clock.strftime_dmY (date_now f) in
      let time := Clock.strftime_IMSp (time_now f) in
      let df := read_csv (csv w) in
      if negb (already_marked df date) then
        let df' := loc_set df (length df) (mkRow (Str "Aman") (Str date) (Str time)) in
        let rec := mkLine name date time in
        let w1 := mkWorld (to_csv df') (cloud w) (trace w ++ [CsvWritten rec]) in
        if use_firebase then
          if cloud_raises f
          then mkWorld (csv w1) (cloud w1) (trace w1 ++ [CloudErrorPrinted rec])
          else mkWorld (csv w1) (cloud w1 ++ [rec]) (trace w1 ++ [CloudAdded rec])
        else w1
      else w
    else w.

Definition process_faces (use_firebase : bool) (w : world) (fs : list face) : world :=
  fold_left (process_face use_firebase) fs w.

(** The loop over the frames the camera delivers. [cv2.cvtColor] raises
    on a frame that is None and nothing catches it. *)
Fixpoint main_loop (use_firebase : bool) (w : world) (frames : list frame_input)
  : status * world :=
  match frames with
  | [] => (Streaming, w)
  | fr :: rest =>
      match grabbed fr with
      | None => (Crashed, w)
      | Some faces =>
          let w' := process_faces use_firebase w faces in
          if key_q fr then (Released, w') else main_loop use_firebase w' rest
      end
  end.

End AttendanceSystemPro.

(** ** recognize_face.py *)

Module RecognizeFace.

Definition THRESHOLD : Q := (75 # 100)%Q.

Inductive label : Type :=
| AccessGranted
| Unknown.

Record frame_input : Type := mkFrame {
  grabbed : option (list Float.float);   (* the cosine of each detected face *)
  key_q : bool
}.

Inductive status : Type :=
| Streaming
| Released.

Definition classify (s : Float.float) : label :=
  if Float.gt s THRESHOLD then AccessGranted else Unknown.

(** The loop draws labels and writes no file. It returns the labels drawn,
    frame by frame. *)
Fixpoint main_loop (drawn : list (list label)) (frames : list frame_input)
  : status * list (list label) :=
  match frames with
  | [] => (Streaming, drawn)
  | fr :: rest =>
      match grabbed fr with
      | None => (Released, drawn)
      | Some sims =>
          let drawn' := drawn ++ [map classify sims] in
          if key_q fr then (Released, drawn') else main_loop drawn' rest
      end
  end.

End RecognizeFace.

(** ** Python strings *)

Module Py.

Definition is_upper (c : ascii) : bool :=
  let n := nat_of_ascii c in Nat.leb 65 n && Nat.leb n 90.

Definition lower_ascii (c : ascii) : ascii :=
  if is_upper c then ascii_of_nat (nat_of_ascii c + 32) else c.

(** [s.lower()], on ASCII letters. *)
Fixpoint lower (s : string) : string :=
  match s with
  | EmptyString => EmptyString
  | String c r => String (lower_ascii c) (lower r)
  end.

(** [s.endswith(suf)] *)
Definition endswith (s suf : string) : bool :=
  Nat.leb (String.length suf) (String.length s)
  && String.eqb (substring (String.length s - String.length suf) (String.length suf) s) suf.

(** Whitespace that [str.strip()] removes, among ASCII characters. *)
Definition is_space (c : ascii) : bool :=
  let n := nat_of_ascii c in
  Nat.eqb n 32 || (Nat.leb 9 n && Nat.leb n 13) || (Nat.leb 28 n && Nat.leb n 31).

Fixpoint lstrip (s : string) : string :=
  match s with
  | EmptyString => EmptyString
  | String c r => if is_space c then lstrip r else s
  end.

Fixpoint rstrip (s : string) : string :=
  match s with
  | EmptyString => EmptyString
  | String c r =>
      match rstrip r with
      | EmptyString => if is_space c then EmptyString else String c EmptyString
      | r' => String c r'
      end
  end.

Definition strip (s : string) : string := rstrip (lstrip s).

(** [needle in s] *)
Fixpoint contains (needle s : string) : bool :=
  String.prefix needle s
  || match s with
     | EmptyString => false
     | String _ r => contains needle r
     end.

End Py.

(** ** train_model.py *)

Module TrainModel.

Section Numpy.

(** The float32 values of an embedding. *)
Context {float32 : Type}.

(** [np.mean(embeddings, axis=0)] on the k-by-d array built from a
    non-empty list of embeddings: the element-wise mean as numpy computes
    it in float32. *)
Variable np_mean_axis0 : list (list float32) -> list float32.

(** An embedding: the 512 float32 components FaceNet returns. *)
Definition vector : Type := list float32.

(** What happens inside [try] for one image file. *)
Inductive outcome : Type :=
| OpenRaises              (* Image.open / convert raises *)
| NoFace                  (* len(faces) == 0 *)
| EmbedRaises             (* cropping, resizing or the embedder raises *)
| Embedded (emb : vector).

Record image_file : Type := mkImage { img_name : string; result : outcome }.

Definition valid_ext : list string := [".jpg"; ".jpeg"; ".png"].

Definition has_valid_ext (name : string) : bool :=
  existsb (Py.endswith (Py.lower name)) valid_ext.

(** Body of the inner [for]: what is appended to [embeddings]. *)
Definition process_image (embeddings : list vector) (f : image_file) : list vector :=
  if negb (has_valid_ext (img_name f)) then embeddings
  else
    match result f with
    | OpenRaises => embeddings
    | NoFace => embeddings
    | EmbedRaises => embeddings
    | Embedded emb => embeddings ++ [emb]
    end.

(** [os.walk] hands the files over directory by directory. *)
Definition collect (files : list image_file) : list vector :=
  fold_left process_image files [].

Inductive exit_status : Type :=
| ExitNoFolder     (* faces_new folder not found *)
| ExitNoFaces      (* No valid faces embedded *)
| TrainingComplete.

(** The script: [faces_new] is the folder's files ([None] when the folder
    does not exist), [model] the content of model/face_embedding.npy. *)
Definition train (faces_new : option (list image_file)) (model : option vector)
  : exit_status * option vector :=
  match faces_new with
  | None => (ExitNoFolder, model)
  | Some files =>
      let embeddings := collect files in
      if Nat.eqb (length embeddings) 0 then (ExitNoFaces, model)
      else (TrainingComplete, Some (np_mean_axis0 embeddings))
  end.



End Numpy.

Arguments outcome : clear implicits.
Arguments image_file : clear implicits.
Arguments vector : clear implicits.

End TrainModel.

(** ** pd.to_datetime on the texts of this program *)

Module Dates.
Import Pandas.

(** A calendar day: year, month, day. *)
Definition date : Type := (nat * nat * nat)%type.

Definition date_compare (a b : date) : comparison :=
  match a, b with
  | (ya, ma, da), (yb, mb, db) =>
      match Nat.compare ya yb with
      | Eq => match Nat.compare ma mb with
              | Eq => Nat.compare da db
              | c => c
              end
      | c => c
      end
  end.

Definition date_leb (a b : date) : bool :=
  match date_compare a b with Gt => false | _ => true end.

Definition digit_val (c : ascii) : option nat :=
  let n := nat_of_ascii c in
  if Nat.leb 48 n && Nat.leb n 57 then Some (n - 48) else None.

Fixpoint number (cs : list ascii) (acc : nat) : option nat :=
  match cs with
  | [] => Some acc
  | c :: r => match digit_val c with
              | Some d => number r (10 * acc + d)
              | None => None
              end
  end.

Definition is_leap (y : nat) : bool :=
  (Nat.eqb (y mod 4) 0 && negb (Nat.eqb (y mod 100) 0)) || Nat.eqb (y mod 400) 0.

Definition days_in_month (y m : nat) : nat :=
  match m with
  | 1 | 3 | 5 | 7 | 8 | 10 | 12 => 31
  | 4 | 6 | 9 | 11 => 30
  | 2 => if is_leap y then 29 else 28
  | _ => 0
  end.

Definition valid (y m d : nat) : option date :=
  if Nat.leb 1 d && Nat.leb d (days_in_month y m) then Some (y, m, d) else None.

(** Text in the layout DD-MM-YYYY. *)
Definition parse_dmY (s : string) : option date :=
  match list_ascii_of_string s with
  | [d1; d2; "-"%char; m1; m2; "-"%char; y1; y2; y3; y4] =>
      match number [d1; d2] 0, number [m1; m2] 0, number [y1; y2; y3; y4] 0 with
      | Some d, Some m, Some y => valid y m d
      | _, _, _ => None
      end
  | _ => None
  end.

(** Text in the layout YYYY-MM-DD. *)
Definition parse_Ymd (s : string) : option date :=
  match list_ascii_of_string s with
  | [y1; y2; y3; y4; "-"%char; m1; m2; "-"%char; d1; d2] =>
      match number [d1; d2] 0, number [m1; m2] 0, number [y1; y2; y3; y4] 0 with
      | Some d, Some m, Some y => valid y m d
      | _, _, _ => None
      end
  | _ => None
  end.

(** [pd.to_datetime(col, errors="coerce", dayfirst=True)] on one cell of
    the Date column; [None] is NaT. The store writes DD-MM-YYYY; text in
    any other layout is read as NaT here. *)
Definition to_datetime_dayfirst (c : cell) : option date :=
  match c with
  | NaN => None
  | Str s => parse_dmY s
  end.

(** [pd.to_datetime(text)] on a bound of the report form, which sends
    YYYY-MM-DD; [None] stands for the exception that the caller
    swallows. *)
Definition to_datetime (s : string) : option date := parse_Ymd s.

End Dates.

(** ** app.py: the attendance store *)

Module App.
Import Pandas Attendance.

(** [add_attendance(name)]: [file] is [None] when [pd.read_csv] raises
    (the except branch starts from an empty frame). The two clock
    readings are those of the two [datetime.now()] calls. *)
Definition add_attendance (file : option (list line)) (name : string)
    (now_d now_t : Clock.datetime) : list line :=
  let df := match file with
            | Some f => read_csv f
            | None => []
            end in
  let df' := loc_set df (length df)
               (mkRow (Str name) (Str (Clock.strftime_dmY now_d))
                      (Str (Clock.strftime_IMp now_t))) in
  to_csv df'.

(** The filters of the report form, as sent. *)
Record filters : Type := mkFilters {
  f_name : string; f_date_from : string; f_date_to : string
}.

Inductive outcome (A : Type) : Type :=
| Returned (a : A)
| Raised           (* an exception leaves the function *)
| NotModelled.     (* the text is a regular expression beyond plain text *)
Arguments Returned {A} a.
Arguments Raised {A}.
Arguments NotModelled {A}.

(** Characters that [re] does not read as themselves. *)
Definition regex_special : list ascii :=
  [ "."; "^"; "$"; "*"; "+"; "?"; "{"; "}"; "["; "]"; "\"; "|"; "("; ")" ]%char.

Definition is_plain_text (pat : string) : bool :=
  forallb (fun c => negb (existsb (Ascii.eqb c) regex_special))
          (list_ascii_of_string pat).

(** [Series.str.contains(pat, case=False, na=False)] on one cell, for a
    pattern of plain text: a search that ignores the case of ASCII
    letters; a missing cell gives False. *)
Definition str_contains (pat : string) (c : cell) : bool :=
  match c with
  | NaN => false
  | Str s => Py.contains (Py.lower pat) (Py.lower s)
  end.

(** A row with its [DateObj]. *)
Definition dated : Type := (row * option Dates.date)%type.

(** [a] is ahead of [b] under
    [sort_values(by=["DateObj","Time"], ascending=[False, False])]:
    later date first, NaT last; then the greater Time text first,
    missing last. *)
Definition time_ahead (a b : cell) : bool :=
  match a, b with
  | Str s, Str t => match String.compare s t with Gt => true | _ => false end
  | Str _, NaN => true
  | NaN, _ => false
  end.

Definition ahead (a b : dated) : bool :=
  match snd a, snd b with
  | Some da, Some db =>
      match Dates.date_compare da db with
      | Gt => true
      | Lt => false
      | Eq => time_ahead (Time (fst a)) (Time (fst b))
      end
  | Some _, None => true
  | None, Some _ => false
  | None, None => time_ahead (Time (fst a)) (Time (fst b))
  end.

Fixpoint insert (x : dated) (l : list dated) : list dated :=
  match l with
  | [] => [x]
  | y :: r => if ahead y x then y :: insert x r else x :: y :: r
  end.

(** The sort keeps rows with equal keys in their order. *)
Definition sort_values (l : list dated) : list dated :=
  fold_right insert [] l.

(** A mirrored document, taken to hold text in its three fields, is added
    unless a record read so far has the same three values. *)
Definition same_record (r : row) (d : line) : bool :=
  eq_str (Name r) (lName d) && eq_str (Date r) (lDate d) && eq_str (Time r) (lTime d).

Definition merge_doc (all_records : list row) (d : line) : list row :=
  if existsb (fun r => same_record r d) all_records then all_records
  else all_records ++ [mkRow (Str (lName d)) (Str (lDate d)) (Str (lTime d))].

Definition keep_from (bound : string) (l : list dated) : list dated :=
  match Dates.to_datetime bound with
  | Some b => filter (fun p => match snd p with
                               | Some d => Dates.date_leb b d
                               | None => false
                               end) l
  | None => l
  end.

Definition keep_to (bound : string) (l : list dated) : list dated :=
  match Dates.to_datetime bound with
  | Some b => filter (fun p => match snd p with
                               | Some d => Dates.date_leb d b
                               | None => false
                               end) l
  | None => l
  end.

Definition is_empty (s : string) : bool := String.eqb s "".

(** [load_attendance(filters)]. [file] is [None] when the file is absent
    or unreadable; [firebase] is [None] when the mirror is off or its
    query raises, else the documents the query streams. *)
Definition load_attendance (file : option (list line)) (firebase : option (list line))
    (flt : option filters) : outcome (list row) :=
  let local := match file with
               | Some f => values (read_csv f)
               | None => []
               end in
  let all_records := match firebase with
                     | Some docs => fold_left merge_doc docs local
                     | None => local
                     end in
  match all_records with
  | [] => Returned []
  | _ :: _ =>
      let df := map (fun r => (r, Dates.to_datetime_dayfirst (Date r))) all_records in
      let finish (l : list dated) := Returned (map fst (sort_values l)) in
      match flt with
      | None => finish df
      | Some f =>
          let name := Py.strip (f_name f) in
          let d_from := Py.strip (f_date_from f) in
          let d_to := Py.strip (f_date_to f) in
          let dates (l : list dated) :=
            let l1 := if is_empty d_from then l else keep_from d_from l in
            if is_empty d_to then l1 else keep_to d_to l1 in
          if is_empty name then finish (dates df)
          else if forallb (fun r => isna (Name r)) all_records
               then Raised   (* a column of floats has no .str accessor *)
          else if is_plain_text name
               then finish (dates (filter (fun p => str_contains name (Name (fst p))) df))
               else NotModelled
      end
  end.

(** *** tasks_local.csv *)

Record task_line : Type := mkTaskLine {
  tl_user : string; tl_task : string; tl_status : string;
  tl_date : string; tl_time : string; tl_created : string
}.

Record task : Type := mkTask {
  t_user : cell; t_task : cell; t_status : cell;
  t_date : cell; t_time : cell; t_created : cell
}.

Definition read_task (l : task_line) : task :=
  mkTask (read_cell (tl_user l)) (read_cell (tl_task l)) (read_cell (tl_status l))
         (read_cell (tl_date l)) (read_cell (tl_time l)) (read_cell (tl_created l)).

Definition write_task (t : task) : task_line :=
  mkTaskLine (write_cell (t_user t)) (write_cell (t_task t)) (write_cell (t_status t))
             (write_cell (t_date t)) (write_cell (t_time t)) (write_cell (t_created t)).

Definition read_tasks (f : list task_line) : frame task := range_index (map read_task f).

Definition tasks_to_csv (df : frame task) : list task_line := map write_task (values df).

Definition set_status (v : string) (t : task) : task :=
  mkTask (t_user t) (t_task t) (Str v) (t_date t) (t_time t) (t_created t).

(** The local-file branch of [update_task] ([USE_FIREBASE] false, or the
    mirror updated nothing). [file] is [None] when the file is absent or
    unreadable. Returns [updated] and the file. *)
Definition update_task_local (file : option (list task_line)) (user new_status : string)
  : bool * option (list task_line) :=
  match file with
  | None => (false, file)
  | Some f =>
      let df := read_tasks f in
      let idx := index_where (fun t => eq_str (t_user t) user) df in
      match rev idx with
      | [] => (false, file)
      | i :: _ => (true, Some (tasks_to_csv (at_set df i (set_status new_status))))
      end
  end.

(** *** users.csv *)

Record user_line : Type := mkUserLine {
  ul_username : string; ul_fullname : string; ul_password : string; ul_created : string
}.

Record user : Type := mkUser {
  Username : cell; FullName : cell; Password : cell; Created : cell
}.

Definition read_user (l : user_line) : user :=
  mkUser (read_cell (ul_username l)) (read_cell (ul_fullname l))
         (read_cell (ul_password l)) (read_cell (ul_created l)).

Definition write_user (u : user) : user_line :=
  mkUserLine (write_cell (Username u)) (write_cell (FullName u))
             (write_cell (Password u)) (write_cell (Created u)).

(** [df.dropna(subset=["Username"])] *)
Definition dropna_username (df : frame user) : frame user :=
  filter (fun p => negb (isna (Username (snd p)))) df.

(** [df.drop_duplicates(subset=["Username"], keep="last")]: a row stays
    when no later row has its Username. *)
Fixpoint drop_duplicates_last (df : frame user) : frame user :=
  match df with
  | [] => []
  | p :: rest =>
      if existsb (fun q => cell_eqb (Username (snd q)) (Username (snd p))) rest
      then drop_duplicates_last rest
      else p :: drop_duplicates_last rest
  end.

(** [safe_read_users()]: an absent or unreadable file gives the empty
    frame. The rows keep the labels [read_csv] gave them. *)
Definition safe_read_users (file : option (list user_line)) : frame user :=
  match file with
  | None => []
  | Some f => drop_duplicates_last (dropna_username (range_index (map read_user f)))
  end.

(** The form of /add-user, a missing field being the empty text. *)
Record add_user_form : Type := mkForm {
  form_username : string; form_fullname : string; form_password : string
}.

Inductive flash : Type :=
| RequiredMissing     (* Username and password required *)
| AlreadyExists       (* User already exists (Local) *)
| AddedLocalOnly      (* User added successfully (Local only) *)
| SyncedToCloud       (* User synced to Cloud and Local *)
| CloudSyncFailed.    (* User added locally but Cloud sync failed *)

(** The POST branch of [add_user]. [hash_password] is SHA-256 in hex,
    [today] the reading of [datetime.now()]; [use_firebase] and
    [cloud_raises] decide the message after the local save, which is
    taken to succeed. [None] as a file is the absent file. *)
Definition add_user (hash_password : string -> string)
    (use_firebase cloud_raises : bool) (today : Clock.datetime)
    (file : option (list user_line)) (form : add_user_form)
  : flash * option (list user_line) :=
  let uname := Py.strip (form_username form) in
  let fname := Py.strip (form_fullname form) in
  let pwd := Py.strip (form_password form) in
  if is_empty uname || is_empty pwd then (RequiredMissing, file)
  else
    let df := safe_read_users file in
    if existsb (fun u => eq_str (Username u) uname) (values df) then (AlreadyExists, file)
    else
      let hashed := hash_password pwd in
      let df' := loc_set df (length df)
                   (mkUser (Str uname) (Str fname) (Str hashed)
                           (Str (Clock.strftime_dmY today))) in
      let file' := Some (map write_user (values df')) in
      if use_firebase
      then if cloud_raises then (CloudSyncFailed, file') else (SyncedToCloud, file')
      else (AddedLocalOnly, file').


End App.

(** * Properties *)

(** ** Frames read from a file *)

Section RangeIndex.
Context {A : Type}.
Import Pandas.

Lemma values_combine (ls : list nat) (rows : list A) :
  length ls = length rows -> map snd (combine ls rows) = rows.
Proof.
  revert ls; induction rows as [|r rows IH]; intros [|l ls] H; simpl in *;
    try reflexivity; try discriminate.
  f_equal. apply IH. lia.
Qed.

Lemma values_range_index (rows : list A) : values (range_index rows) = rows.
Proof.
  unfold values, range_index. apply values_combine. now rewrite length_seq.
Qed.

Lemma length_range_index (rows : list A) : length (range_index rows) = length rows.
Proof.
  unfold range_index. rewrite length_combine, length_seq. lia.
Qed.

Lemma labels_range_index (rows : list A) :
  map fst (range_index rows) = seq 0 (length rows).
Proof.
  unfold range_index.
  generalize 0. induction rows as [|r rows IH]; intros n; simpl; [reflexivity|].
  f_equal. apply IH.
Qed.

Lemma has_label_spec (df : frame A) (l : nat) :
  has_label df l = true <-> In l (map fst df).
Proof.
  unfold has_label. rewrite existsb_exists. split.
  - intros [p [Hp E]]. apply Nat.eqb_eq in E. subst. now apply in_map.
  - intros H. apply in_map_iff in H. destruct H as [p [E Hp]].
    exists p. split; [assumption|]. now apply Nat.eqb_eq.
Qed.

Lemma has_label_range_index (rows : list A) :
  has_label (range_index rows) (length rows) = false.
Proof.
  destruct (has_label (range_index rows) (length rows)) eqn:E; [|reflexivity].
  apply has_label_spec in E. rewrite labels_range_index in E.
  apply in_seq in E. lia.
Qed.

(** On a frame just read, [df.loc[len(df)] = r] appends. *)
Lemma loc_set_range_index (rows : list A) (r : A) :
  values (loc_set (range_index rows) (length (range_index rows)) r) = rows ++ [r].
Proof.
  rewrite length_range_index. unfold loc_set.
  rewrite has_label_range_index. unfold values.
  rewrite map_app. simpl. f_equal. apply values_range_index.
Qed.

End RangeIndex.

(** ** Cells through the file *)

Section Cells.
Import Pandas.

Lemma is_na_text_length (s : string) :
  is_na_text s = true -> String.length s <= 8.
Proof.
  unfold is_na_text, STR_NA_VALUES. simpl.
  repeat (rewrite orb_true_iff; intros [H|H];
          [apply String.eqb_eq in H; subst; simpl; lia | revert H]).
  discriminate.
Qed.

Lemma is_na_text_empty : is_na_text "" = true.
Proof. reflexivity. Qed.

(** A missing cell is never equal to a text; a text cell compares as the
    text on the line, when the text sought is not one read as missing. *)
Lemma eq_str_read_cell (s x : string) :
  is_na_text x = false -> eq_str (read_cell s) x = String.eqb s x.
Proof.
  intros Hx. unfold read_cell. destruct (is_na_text s) eqn:Hs; simpl; [|reflexivity].
  symmetry. apply String.eqb_neq. intros ->. congruence.
Qed.

Lemma read_write_read (s : string) : read_cell (write_cell (read_cell s)) = read_cell s.
Proof.
  unfold read_cell. destruct (is_na_text s) eqn:Hs; simpl.
  - reflexivity.
  - now rewrite Hs.
Qed.

Lemma write_read_eqb (s x : string) :
  is_na_text x = false -> String.eqb (write_cell (read_cell s)) x = String.eqb s x.
Proof.
  intros Hx. unfold read_cell. destruct (is_na_text s) eqn:Hs; cbn [write_cell];
    [|reflexivity].
  transitivity false.
  - apply String.eqb_neq. intros <-. now rewrite is_na_text_empty in Hx.
  - symmetry. apply String.eqb_neq. intros ->. congruence.
Qed.

End Cells.

(** ** The text of a date *)

Section DateText.
Import Clock.

Lemma length_append (a b : string) :
  String.length (a ++ b)%string = String.length a + String.length b.
Proof. induction a as [|c a IH]; simpl; [reflexivity|]. now rewrite IH. Qed.

Lemma length_strftime_dmY (t : datetime) : String.length (strftime_dmY t) = 10.
Proof. unfold strftime_dmY. repeat rewrite length_append. reflexivity. Qed.

Lemma strftime_dmY_not_na (t : datetime) : Pandas.is_na_text (strftime_dmY t) = false.
Proof.
  destruct (Pandas.is_na_text (strftime_dmY t)) eqn:E; [|reflexivity].
  apply is_na_text_length in E. rewrite length_strftime_dmY in E. lia.
Qed.

Lemma strftime_IMp_not_na (t : Clock.datetime) : Pandas.is_na_text (Clock.strftime_IMp t) = false.
Proof.
  destruct (Pandas.is_na_text (Clock.strftime_IMp t)) eqn:E; [|reflexivity].
  exfalso. unfold Pandas.is_na_text in E. apply existsb_exists in E.
  destruct E as [tok [Hin E]]. apply String.eqb_eq in E. subst tok.
  unfold Clock.strftime_IMp, Clock.pad2 in Hin. cbn [String.append] in Hin.
  unfold Pandas.STR_NA_VALUES in Hin. cbn [In] in Hin.
  repeat (destruct Hin as [Hin|Hin]; [congruence|]).
  exact Hin.
Qed.

End DateText.

(** ** attendance_system_pro.py: one face *)

Section ProFace.
Import Pandas Attendance AttendanceSystemPro.

Lemma count_for_app (n d : string) (a b : list line) :
  count_for n d (a ++ b) = count_for n d a + count_for n d b.
Proof. unfold count_for. now rewrite filter_app, length_app. Qed.

Lemma count_for_rewritten (n d : string) (f : list line) :
  is_na_text n = false -> is_na_text d = false ->
  count_for n d (map rewritten f) = count_for n d f.
Proof.
  intros Hn Hd. unfold count_for.
  induction f as [|l f IH]; [reflexivity|].
  cbn [map filter]. unfold rewritten at 1 2, write_row, read_line.
  cbn [lName lDate Name Date].
  rewrite (write_read_eqb _ _ Hn), (write_read_eqb _ _ Hd).
  destruct (String.eqb (lName l) n && String.eqb (lDate l) d); simpl; now rewrite IH.
Qed.

Lemma already_marked_count (f : list line) (d : string) :
  is_na_text d = false ->
  already_marked (read_csv f) d = false -> count_for "Aman" d f = 0.
Proof.
  intros Hd. unfold already_marked, read_csv, count_for.
  rewrite values_range_index.
  induction f as [|l f IH]; [reflexivity|].
  cbn [map existsb filter]. unfold read_line at 1 2. cbn [Name Date].
  rewrite (eq_str_read_cell _ "Aman" eq_refl), (eq_str_read_cell _ _ Hd).
  intros H. apply orb_false_iff in H. destruct H as [H1 H2].
  rewrite H1. now apply IH.
Qed.

(** What one face does to the world: nothing, or one CSV write followed,
    when the mirror is on, by one attempt on the cloud. *)
Lemma process_face_cases (uf : bool) (w : world) (f : face) :
  process_face uf w f = w \/
  exists rec : line,
    Float.gt (similarity f) THRESHOLD = true /\
    lName rec = "Aman" /\ lDate rec = Clock.strftime_dmY (date_now f) /\
    count_for "Aman" (lDate rec) (csv w) = 0 /\
    csv (process_face uf w f) = map rewritten (csv w) ++ [rec] /\
    ((uf = false /\ cloud (process_face uf w f) = cloud w /\
      trace (process_face uf w f) = trace w ++ [CsvWritten rec]) \/
     (uf = true /\ cloud_raises f = true /\ cloud (process_face uf w f) = cloud w /\
      trace (process_face uf w f) = trace w ++ [CsvWritten rec; CloudErrorPrinted rec]) \/
     (uf = true /\ cloud_raises f = false /\
      cloud (process_face uf w f) = cloud w ++ [rec] /\
      trace (process_face uf w f) = trace w ++ [CsvWritten rec; CloudAdded rec])).
Proof.
  unfold process_face.
  destruct (crop_size_zero f); [now left|].
  unfold classify.
  destruct (Float.gt (similarity f) THRESHOLD) eqn:Hgt; [|now left].
  cbn [String.eqb Ascii.eqb Bool.eqb andb].
  change (String.eqb "Aman" "Aman") with true. cbv iota.
  destruct (already_marked (read_csv (csv w)) (Clock.strftime_dmY (date_now f))) eqn:Hm;
    [now left|].
  right. cbn [negb].
  exists (mkLine "Aman" (Clock.strftime_dmY (date_now f))
                 (Clock.strftime_IMSp (time_now f))).
  assert (Hcsv : to_csv (loc_set (read_csv (csv w)) (length (read_csv (csv w)))
                   (mkRow (Str "Aman") (Str (Clock.strftime_dmY (date_now f)))
                          (Str (Clock.strftime_IMSp (time_now f)))))
                 = map rewritten (csv w) ++
                   [mkLine "Aman" (Clock.strftime_dmY (date_now f))
                           (Clock.strftime_IMSp (time_now f))]).
  { unfold to_csv, read_csv. rewrite loc_set_range_index.
    rewrite map_app, map_map. reflexivity. }
  repeat split; try reflexivity.
  - apply already_marked_count; [apply strftime_dmY_not_na | exact Hm].
  - destruct uf; [destruct (cloud_raises f)|]; cbn [csv]; exact Hcsv.
  - destruct uf.
    + right. destruct (cloud_raises f).
      * left. cbn [cloud trace]. repeat split. now rewrite <- app_assoc.
      * right. cbn [cloud trace]. repeat split. now rewrite <- app_assoc.
    + left. cbn [cloud trace]. now repeat split.
Qed.

End ProFace.

(** ** attendance_system_pro.py: the loop *)

Section ProLoop.
Import Pandas Attendance AttendanceSystemPro.

(** From [w] to [w'] the loop has written [k] records for (Aman, [d]). *)
Definition appended (d : string) (w w' : world) (k : nat) : Prop :=
  count_for "Aman" d (csv w') = count_for "Aman" d (csv w) + k /\
  writes_for d (trace w') = writes_for d (trace w) + k.

Definition at_most_once (d : string) (w w' : world) : Prop :=
  exists k, k <= 1 /\ (1 <= count_for "Aman" d (csv w) -> k = 0) /\ appended d w w' k.

Lemma at_most_once_refl (d : string) (w : world) : at_most_once d w w.
Proof. exists 0. unfold appended. repeat split; lia. Qed.

Lemma at_most_once_trans (d : string) (w1 w2 w3 : world) :
  at_most_once d w1 w2 -> at_most_once d w2 w3 -> at_most_once d w1 w3.
Proof.
  intros [k1 [L1 [Z1 [C1 T1]]]] [k2 [L2 [Z2 [C2 T2]]]].
  exists (k1 + k2). unfold appended. repeat split; lia.
Qed.

Lemma writes_for_app (d : string) (a b : list event) :
  writes_for d (a ++ b) = writes_for d a + writes_for d b.
Proof. unfold writes_for. now rewrite filter_app, length_app. Qed.

Lemma process_face_at_most_once (uf : bool) (w : world) (f : face) (t : Clock.datetime) :
  at_most_once (Clock.strftime_dmY t) w (process_face uf w f).
Proof.
  destruct (process_face_cases uf w f) as [E | [rec [_ [Hn [Hd [H0 [Hcsv Htr]]]]]]].
  - rewrite E. apply at_most_once_refl.
  - set (d := Clock.strftime_dmY t) in *.
    assert (Hc : count_for "Aman" d (csv (process_face uf w f))
                 = count_for "Aman" d (csv w)
                   + (if String.eqb (lDate rec) d then 1 else 0)).
    { rewrite Hcsv, count_for_app.
      rewrite (count_for_rewritten "Aman" _ _ eq_refl (strftime_dmY_not_na t)).
      f_equal. unfold count_for. cbn [filter]. rewrite Hn.
      change (String.eqb "Aman" "Aman") with true. cbn [andb].
      now destruct (String.eqb (lDate rec) d). }
    assert (Hw : writes_for d (trace (process_face uf w f))
                 = writes_for d (trace w)
                   + (if String.eqb (lDate rec) d then 1 else 0)).
    { destruct Htr as [[_ [_ ->]] | [[_ [_ [_ ->]]] | [_ [_ [_ ->]]]]];
        rewrite writes_for_app; f_equal; unfold writes_for; cbn [filter is_write_for];
        now destruct (String.eqb (lDate rec) d). }
    exists (if String.eqb (lDate rec) d then 1 else 0).
    destruct (String.eqb (lDate rec) d) eqn:E.
    + apply String.eqb_eq in E. rewrite E in H0.
      unfold appended. repeat split; lia.
    + unfold appended. repeat split; lia.
Qed.

Lemma process_faces_at_most_once (uf : bool) (t : Clock.datetime) (fs : list face) :
  forall w, at_most_once (Clock.strftime_dmY t) w (process_faces uf w fs).
Proof.
  unfold process_faces. induction fs as [|f fs IH]; intros w; simpl.
  - apply at_most_once_refl.
  - eapply at_most_once_trans; [apply process_face_at_most_once | apply IH].
Qed.

Lemma main_loop_at_most_once (uf : bool) (t : Clock.datetime) (frames : list frame_input) :
  forall w, at_most_once (Clock.strftime_dmY t) w (snd (main_loop uf w frames)).
Proof.
  induction frames as [|fr frames IH]; intros w; simpl.
  - apply at_most_once_refl.
  - destruct (grabbed fr) as [faces|]; simpl; [|apply at_most_once_refl].
    destruct (key_q fr); simpl.
    + apply process_faces_at_most_once.
    + eapply at_most_once_trans; [apply process_faces_at_most_once | apply IH].
Qed.

End ProLoop.

(** ** The threshold and the once-a-day rule *)

Lemma float_le_not_gt (s : Float.float) (thr : Q) :
  Float.le s thr = true -> Float.gt s thr = false.
Proof.
  destruct s as [q|]; simpl; [|discriminate].
  intros ->. reflexivity.
Qed.

(** C1. In attendance_system_pro.py a face whose cosine similarity is at
    most 0.70 leaves the attendance file, the mirror and the trace as they
    were, and a face that changes anything has a similarity strictly above
    0.70; in recognize_face.py, which keeps no attendance store at all, a
    similarity of at most 0.75 is labelled Unknown. *)
Theorem below_threshold_records_nothing :
  (forall (uf : bool) (w : AttendanceSystemPro.world) (f : AttendanceSystemPro.face),
      Float.le (AttendanceSystemPro.similarity f) AttendanceSystemPro.THRESHOLD = true ->
      AttendanceSystemPro.process_face uf w f = w) /\
  (forall (uf : bool) (w : AttendanceSystemPro.world) (f : AttendanceSystemPro.face),
      AttendanceSystemPro.process_face uf w f <> w ->
      Float.gt (AttendanceSystemPro.similarity f) AttendanceSystemPro.THRESHOLD = true) /\
  (forall s : Float.float,
      Float.le s RecognizeFace.THRESHOLD = true ->
      RecognizeFace.classify s = RecognizeFace.Unknown).
Proof.
  split; [|split].
  - intros uf w f H. apply float_le_not_gt in H.
    unfold AttendanceSystemPro.process_face, AttendanceSystemPro.classify.
    rewrite H. now destruct (AttendanceSystemPro.crop_size_zero f).
  - intros uf w f H.
    destruct (process_face_cases uf w f) as [E | [rec [Hgt _]]]; [contradiction | exact Hgt].
  - intros s H. apply float_le_not_gt in H.
    unfold RecognizeFace.classify. now rewrite H.
Qed.

(** C2. Whatever frames the camera delivers, the loop of
    attendance_system_pro.py writes at most one record for (Aman, date):
    the number k of such records it adds to attendance.csv, which is also
    the number of its CSV writes for that date, is 0 or 1, and it is 0 when
    the file already holds a record for that pair. *)
Theorem one_record_per_identity_and_date :
  forall (uf : bool) (frames : list AttendanceSystemPro.frame_input)
         (w : AttendanceSystemPro.world) (t : Clock.datetime),
    let d := Clock.strftime_dmY t in
    let w' := snd (AttendanceSystemPro.main_loop uf w frames) in
    exists k : nat,
      k <= 1 /\
      (1 <= Attendance.count_for "Aman" d (AttendanceSystemPro.csv w) -> k = 0) /\
      Attendance.count_for "Aman" d (AttendanceSystemPro.csv w')
        = Attendance.count_for "Aman" d (AttendanceSystemPro.csv w) + k /\
      AttendanceSystemPro.writes_for d (AttendanceSystemPro.trace w')
        = AttendanceSystemPro.writes_for d (AttendanceSystemPro.trace w) + k.
Proof.
  intros uf frames w t d w'.
  destruct (main_loop_at_most_once uf t frames w) as [k [L [Z [C T]]]].
  exists k. repeat split; assumption.
Qed.

Definition noon : Clock.datetime := Clock.mkDatetime 2026 11 4 12 5 9.

Definition empty_world : AttendanceSystemPro.world := AttendanceSystemPro.mkWorld [] [] [].

Definition same_face (s : Q) : AttendanceSystemPro.face :=
  AttendanceSystemPro.mkFace false (Some s) noon noon false.

Lemma below_threshold_records_nothing_witness :
  Float.le (AttendanceSystemPro.similarity (same_face (7 # 10)))
           AttendanceSystemPro.THRESHOLD = true /\
  AttendanceSystemPro.process_face true empty_world (same_face (7 # 10)) = empty_world.
Proof.
  split; [reflexivity|].
  apply (proj1 below_threshold_records_nothing). reflexivity.
Defined.

(** Three qualifying frames on one day leave one line in the file. *)
Example three_frames_one_line :
  AttendanceSystemPro.csv
    (snd (AttendanceSystemPro.main_loop false empty_world
            [ AttendanceSystemPro.mkFrame (Some [same_face (9 # 10); same_face (8 # 10)]) false;
              AttendanceSystemPro.mkFrame (Some [same_face (71 # 100)]) false ]))
  = [ Attendance.mkLine "Aman" "04-11-2026" "12:05:09 PM" ].
Proof. reflexivity. Qed.

Lemma one_record_per_identity_and_date_witness :
  exists k : nat,
    k <= 1 /\
    (1 <= Attendance.count_for "Aman" (Clock.strftime_dmY noon) [] -> k = 0) /\
    Attendance.count_for "Aman" (Clock.strftime_dmY noon)
      (AttendanceSystemPro.csv
         (snd (AttendanceSystemPro.main_loop false empty_world
                 [ AttendanceSystemPro.mkFrame (Some [same_face (9 # 10)]) false ])))
      = Attendance.count_for "Aman" (Clock.strftime_dmY noon) [] + k /\
    AttendanceSystemPro.writes_for (Clock.strftime_dmY noon)
      (AttendanceSystemPro.trace
         (snd (AttendanceSystemPro.main_loop false empty_world
                 [ AttendanceSystemPro.mkFrame (Some [same_face (9 # 10)]) false ])))
      = AttendanceSystemPro.writes_for (Clock.strftime_dmY noon) [] + k.
Proof.
  exact (one_record_per_identity_and_date false
           [ AttendanceSystemPro.mkFrame (Some [same_face (9 # 10)]) false ]
           empty_world noon).
Defined.

(** ** The mirror *)

Section Mirror.
Import Pandas Attendance AttendanceSystemPro.












End Mirror.


Definition failing_mirror_face : AttendanceSystemPro.face :=
  AttendanceSystemPro.mkFace false (Some (9 # 10)%Q) noon noon true.


(** A mirror that raises on the first face of the day: the line is in the
    file, the error is printed, and the loop goes on to the next frame. *)
Example failing_mirror_run :
  AttendanceSystemPro.main_loop true empty_world
    [ AttendanceSystemPro.mkFrame (Some [failing_mirror_face]) false;
      AttendanceSystemPro.mkFrame (Some [same_face (9 # 10)]) true ]
  = (AttendanceSystemPro.Released,
     AttendanceSystemPro.mkWorld
       [ Attendance.mkLine "Aman" "04-11-2026" "12:05:09 PM" ]
       []
       [ AttendanceSystemPro.CsvWritten (Attendance.mkLine "Aman" "04-11-2026" "12:05:09 PM");
         AttendanceSystemPro.CloudErrorPrinted
           (Attendance.mkLine "Aman" "04-11-2026" "12:05:09 PM") ]).
Proof. reflexivity. Qed.

(** ** A frame that cannot be read *)

(** recognize_face.py leaves the loop and releases the camera at the first
    failed read, and on [q]. *)
Lemma recognize_face_failed_read (drawn : list (list RecognizeFace.label))
    (key : bool) (rest : list RecognizeFace.frame_input) :
  RecognizeFace.main_loop drawn (RecognizeFace.mkFrame None key :: rest)
  = (RecognizeFace.Released, drawn).
Proof. reflexivity. Qed.

(** C7. attendance_system_pro.py does not test [ret]: at a failed read the
    frame is None, [cv2.cvtColor] raises, and the script ends without
    reaching [cap.release()], whatever frames would have followed. *)
Theorem pro_loop_failed_read_crashes :
  forall (uf : bool) (w : AttendanceSystemPro.world) (key : bool)
         (rest : list AttendanceSystemPro.frame_input),
    AttendanceSystemPro.main_loop uf w (AttendanceSystemPro.mkFrame None key :: rest)
    = (AttendanceSystemPro.Crashed, w).
Proof. reflexivity. Qed.

(** ** Enrollment *)

Section Enrollment.
Import TrainModel.
Context {float32 : Type}.




End Enrollment.


(** A folder of four files, two of which embed; the values are written as
    the texts of their float32 components. *)
Definition enrollment_folder : list (TrainModel.image_file string) :=
  [ TrainModel.mkImage "a.JPG" (TrainModel.Embedded ["1.0"; "2.0"]);
    TrainModel.mkImage "b.png" TrainModel.NoFace;
    TrainModel.mkImage "notes.txt" (TrainModel.Embedded ["9.0"; "9.0"]);
    TrainModel.mkImage "c.jpeg" (TrainModel.Embedded ["3.0"; "4.0"]) ].

(** The embeddings handed to [np.mean] are those of a.JPG and c.jpeg. *)
Example enrollment_of_two :
  TrainModel.collect enrollment_folder = [ ["1.0"; "2.0"]; ["3.0"; "4.0"] ].
Proof. reflexivity. Qed.

(** No embedding at all: the previous model file stays. *)
Example enrollment_of_none :
  forall (np_mean_axis0 : list (list string) -> list string),
    TrainModel.train np_mean_axis0
      (Some [TrainModel.mkImage "b.png" TrainModel.NoFace]) (Some ["7.0"; "7.0"])
    = (TrainModel.ExitNoFaces, Some ["7.0"; "7.0"]).
Proof. reflexivity. Qed.

(** ** app.py: marking attendance by hand *)

Section ManualMark.
Import Pandas Attendance App.

(** The lines of a file, none for an absent or unreadable one. *)
Definition lines_of (file : option (list line)) : list line :=
  match file with
  | Some f => f
  | None => []
  end.

Lemma add_attendance_appends (file : option (list line)) (name : string)
    (now_d now_t : Clock.datetime) :
  add_attendance file name now_d now_t
  = map rewritten (lines_of file)
      ++ [mkLine name (Clock.strftime_dmY now_d) (Clock.strftime_IMp now_t)].
Proof.
  unfold add_attendance. destruct file as [f|]; [|reflexivity].
  unfold to_csv, read_csv. rewrite loc_set_range_index.
  rewrite map_app, map_map. reflexivity.
Qed.

Lemma read_rewritten (l : line) : read_line (rewritten l) = read_line l.
Proof.
  unfold rewritten, write_row, read_line. cbn [Name Date Time lName lDate lTime].
  now rewrite !read_write_read.
Qed.

Lemma read_rewritten_all (f : list line) :
  map read_line (map rewritten f) = map read_line f.
Proof. rewrite map_map. apply map_ext, read_rewritten. Qed.

(** How a line written by [add_attendance] is read. *)
Lemma read_marked_line (name : string) (now_d now_t : Clock.datetime) :
  read_line (mkLine name (Clock.strftime_dmY now_d) (Clock.strftime_IMp now_t))
  = mkRow (read_cell name) (Str (Clock.strftime_dmY now_d)) (Str (Clock.strftime_IMp now_t)).
Proof.
  unfold read_line. cbn [lName lDate lTime]. f_equal; unfold read_cell.
  - now rewrite strftime_dmY_not_na.
  - now rewrite strftime_IMp_not_na.
Qed.

End ManualMark.

(** Two manual marks on 4 November 2026. *)
Example two_manual_marks :
  App.add_attendance (Some (App.add_attendance (Some []) "ravi" noon noon)) "ravi" noon noon
  = [ Attendance.mkLine "ravi" "04-11-2026" "12:05 PM";
      Attendance.mkLine "ravi" "04-11-2026" "12:05 PM" ].
Proof. reflexivity. Qed.

(** ** app.py: reading attendance back *)

(** C5. A user named [null] marks attendance on an empty file: the line
    written holds the name, and [load_attendance] reads it back as a
    missing value. *)
Theorem round_trip_loses_a_null_name :
  App.add_attendance (Some []) "null" noon noon
    = [ Attendance.mkLine "null" "04-11-2026" "12:05 PM" ] /\
  App.load_attendance (Some (App.add_attendance (Some []) "null" noon noon)) None None
    = App.Returned
        [ Attendance.mkRow Pandas.NaN (Pandas.Str "04-11-2026") (Pandas.Str "12:05 PM") ].
Proof. split; reflexivity. Qed.

Definition evening_file : list Attendance.line :=
  [ Attendance.mkLine "Aman" "04-11-2026" "10:00 AM";
    Attendance.mkLine "Aman" "04-11-2026" "09:00 PM";
    Attendance.mkLine "Aman" "03-11-2026" "11:30 AM";
    Attendance.mkLine "Ravi" "04-11-2026" "08:00 AM";
    Attendance.mkLine "Aman" "01-12-2026" "08:00 AM" ].

Definition november_aman : App.filters :=
  App.mkFilters "am" "2026-11-01" "2026-11-30".

(** C4. On a day with marks at 10:00 AM and at 09:00 PM, the report for
    "am" over November 2026 selects the three rows of Aman in range and
    lists the 10:00 AM row before the 09:00 PM row: within a date the rows
    are ordered by the text of the Time column. *)
Theorem report_lists_morning_before_evening :
  App.load_attendance (Some evening_file) None (Some november_aman)
  = App.Returned
      [ Attendance.mkRow (Pandas.Str "Aman") (Pandas.Str "04-11-2026") (Pandas.Str "10:00 AM");
        Attendance.mkRow (Pandas.Str "Aman") (Pandas.Str "04-11-2026") (Pandas.Str "09:00 PM");
        Attendance.mkRow (Pandas.Str "Aman") (Pandas.Str "03-11-2026") (Pandas.Str "11:30 AM") ].
Proof. reflexivity. Qed.

(** ** app.py: updating a task *)

Section LabelledRows.
Context {A : Type}.
Import Pandas.

(** The frame of rows labelled from [s] on. *)
Definition labelled (s : nat) (rows : list A) : frame A :=
  combine (seq s (length rows)) rows.

Lemma labelled_cons (s : nat) (r : A) (rows : list A) :
  labelled s (r :: rows) = (s, r) :: labelled (S s) rows.
Proof. reflexivity. Qed.

Lemma range_index_labelled (rows : list A) : range_index rows = labelled 0 rows.
Proof. reflexivity. Qed.

Lemma index_where_cons (mask : A -> bool) (l : nat) (r : A) (df : frame A) :
  index_where mask ((l, r) :: df)
  = if mask r then l :: index_where mask df else index_where mask df.
Proof. unfold index_where. cbn [filter snd]. now destruct (mask r). Qed.

Lemma index_where_none (mask : A -> bool) (rows : list A) :
  (forall r, In r rows -> mask r = false) ->
  forall s, index_where mask (labelled s rows) = [].
Proof.
  induction rows as [|r rows IH]; intros H s; [reflexivity|].
  rewrite labelled_cons, index_where_cons.
  rewrite (H r (or_introl eq_refl)).
  apply IH. intros r' Hr'. apply H. now right.
Qed.

(** The last label selected by a mask is the position of the last row
    that satisfies it. *)
Lemma index_where_last (mask : A -> bool) (x : A) (post : list A) :
  mask x = true -> (forall r, In r post -> mask r = false) ->
  forall pre s,
    rev (index_where mask (labelled s (pre ++ x :: post)))
    = (s + length pre) :: rev (index_where mask (labelled s pre)).
Proof.
  intros Hx Hpost. induction pre as [|p pre IH]; intros s.
  - cbn [app]. rewrite labelled_cons, index_where_cons, Hx.
    rewrite (index_where_none mask post Hpost). simpl. f_equal. lia.
  - cbn [app]. rewrite !labelled_cons, !index_where_cons.
    destruct (mask p); cbn [rev]; rewrite IH; cbn [app length]; f_equal; lia.
Qed.

Lemma at_set_below (g : A -> A) (rows : list A) :
  forall s i, i < s -> values (at_set (labelled s rows) i g) = rows.
Proof.
  induction rows as [|r rows IH]; intros s i H; [reflexivity|].
  rewrite labelled_cons. unfold values, at_set. cbn [map fst snd].
  destruct (Nat.eqb s i) eqn:E.
  - apply Nat.eqb_eq in E. lia.
  - cbn [snd]. f_equal. apply (IH (S s) i). lia.
Qed.

(** [df.at[i, col] = v] on a frame just read rewrites the row at position
    [i] and no other. *)
Lemma at_set_position (g : A -> A) (x : A) (post : list A) :
  forall pre s,
    values (at_set (labelled s (pre ++ x :: post)) (s + length pre) g)
    = pre ++ g x :: post.
Proof.
  induction pre as [|p pre IH]; intros s.
  - cbn [app length]. rewrite labelled_cons. unfold values, at_set. cbn [map fst snd].
    replace (s + 0) with s by lia. rewrite Nat.eqb_refl. cbn [snd]. f_equal.
    apply (at_set_below g post (S s) s). lia.
  - cbn [app length]. rewrite labelled_cons. unfold values, at_set. cbn [map fst snd].
    destruct (Nat.eqb s (s + S (length pre))) eqn:E.
    + apply Nat.eqb_eq in E. lia.
    + cbn [snd]. f_equal.
      replace (s + S (length pre)) with (S s + length pre) by lia.
      apply (IH (S s)).
Qed.

End LabelledRows.

Section Tasks.
Import Pandas App.

Lemma read_write_read_task (l : task_line) :
  read_task (write_task (read_task l)) = read_task l.
Proof.
  unfold read_task, write_task.
  cbn [t_user t_task t_status t_date t_time t_created
       tl_user tl_task tl_status tl_date tl_time tl_created].
  now rewrite !read_write_read.
Qed.

(** The row of [l] with the status the form sent, as the next read gives it. *)
Definition with_status (new_status : string) (l : task_line) : task :=
  mkTask (read_cell (tl_user l)) (read_cell (tl_task l)) (read_cell new_status)
         (read_cell (tl_date l)) (read_cell (tl_time l)) (read_cell (tl_created l)).

Lemma read_write_set_status (new_status : string) (l : task_line) :
  read_task (write_task (set_status new_status (read_task l))) = with_status new_status l.
Proof.
  unfold read_task, write_task, set_status, with_status.
  cbn [t_user t_task t_status t_date t_time t_created
       tl_user tl_task tl_status tl_date tl_time tl_created write_cell].
  now rewrite !read_write_read.
Qed.

(** The row of [l] belongs to [user]. *)
Definition owned_by (user : string) (l : task_line) : bool :=
  eq_str (read_cell (tl_user l)) user.

End Tasks.

Definition task_of (user text status : string) : App.task_line :=
  App.mkTaskLine user text status "04-11-2026" "09:15 AM" "2026-11-04T09:15:00".

(** Ravi has two tasks: the later one becomes Done. *)
Example update_latest_task :
  App.update_task_local
    (Some [ task_of "ravi" "first" "Pending"; task_of "ravi" "second" "Pending";
            task_of "meena" "third" "Pending" ])
    "ravi" "Done"
  = (true, Some [ task_of "ravi" "first" "Pending"; task_of "ravi" "second" "Done";
                  task_of "meena" "third" "Pending" ]).
Proof. reflexivity. Qed.

(** ** app.py: adding a user *)

(** C9. users.csv holds the user [null]. A request to add [null] again is
    not rejected: the stored row reads as a missing username and is
    dropped, and the file is rewritten with the new row in its place. *)
Theorem add_user_accepts_a_stored_null :
  forall (hash_password : string -> string) (stored_hash : string),
    App.add_user hash_password false false noon
      (Some [App.mkUserLine "null" "First Owner" stored_hash "03-11-2026"])
      (App.mkForm "null" "Second Owner" "secret")
    = (App.AddedLocalOnly,
       Some [App.mkUserLine "null" "Second Owner" (hash_password "secret") "04-11-2026"]).
Proof. reflexivity. Qed.

(** *** Files whose usernames are distinct texts, none read as missing *)

Section CleanUsers.
Import Pandas App.

Definition usernames (f : list user_line) : list string := map ul_username f.

Definition clean (f : list user_line) : Prop :=
  NoDup (usernames f) /\ forall l, In l f -> is_na_text (ul_username l) = false.

Definition rewritten_user (l : user_line) : user_line := write_user (read_user l).

Lemma cell_eqb_eq (a b : cell) : cell_eqb a b = true <-> a = b.
Proof.
  destruct a as [|s], b as [|t]; simpl; split; intros H;
    try reflexivity; try discriminate.
  - apply String.eqb_eq in H. now subst.
  - inversion H. apply String.eqb_refl.
Qed.

Lemma read_username (l : user_line) :
  is_na_text (ul_username l) = false -> Username (read_user l) = Str (ul_username l).
Proof. intros H. unfold read_user, read_cell. cbn [Username]. now rewrite H. Qed.

Lemma dropna_clean (f : list user_line) :
  (forall l, In l f -> is_na_text (ul_username l) = false) ->
  forall s, dropna_username (labelled s (map read_user f)) = labelled s (map read_user f).
Proof.
  induction f as [|l f IH]; intros H s; [reflexivity|].
  cbn [map]. rewrite labelled_cons. unfold dropna_username. cbn [filter snd].
  rewrite (read_username l (H l (or_introl eq_refl))). cbn [isna negb].
  f_equal. apply IH. intros l' Hl'. apply H. now right.
Qed.

Lemma labelled_username_in (f : list user_line) (c : cell) :
  forall s, existsb (fun q => cell_eqb (Username (snd q)) c) (labelled s (map read_user f)) = true ->
            In c (map (fun l => Username (read_user l)) f).
Proof.
  induction f as [|l f IH]; intros s H; [discriminate|].
  cbn [map] in *. rewrite labelled_cons in H. cbn [existsb snd] in H.
  apply orb_true_iff in H. destruct H as [H|H].
  - left. now apply cell_eqb_eq.
  - right. now apply (IH (S s)).
Qed.

Lemma drop_duplicates_clean (f : list user_line) :
  NoDup (map (fun l => Username (read_user l)) f) ->
  forall s, drop_duplicates_last (labelled s (map read_user f)) = labelled s (map read_user f).
Proof.
  induction f as [|l f IH]; intros H s; [reflexivity|].
  cbn [map] in *. rewrite labelled_cons. cbn [drop_duplicates_last snd].
  inversion H as [|? ? Hnot Hrest]; subst.
  destruct (existsb _ (labelled (S s) (map read_user f))) eqn:E.
  - exfalso. apply Hnot. now apply (labelled_username_in f _ (S s)).
  - f_equal. now apply IH.
Qed.

Lemma clean_cells (f : list user_line) :
  clean f -> map (fun l => Username (read_user l)) f = map Str (usernames f).
Proof.
  intros [_ H]. unfold usernames. rewrite map_map.
  apply map_ext_in. intros l Hl. now apply read_username, H.
Qed.

Lemma NoDup_map_Str (l : list string) : NoDup l -> NoDup (map Str l).
Proof.
  induction 1 as [|x l Hx Hl IH]; cbn [map]; constructor; [|assumption].
  intros Hin. apply in_map_iff in Hin. destruct Hin as [y [E Hy]].
  inversion E. now subst.
Qed.

(** On a clean file [safe_read_users] returns every row, labelled by its
    position. *)
Lemma safe_read_users_clean (f : list user_line) :
  clean f -> safe_read_users (Some f) = range_index (map read_user f).
Proof.
  intros Hc. unfold safe_read_users. rewrite range_index_labelled.
  rewrite (dropna_clean f (proj2 Hc)).
  apply drop_duplicates_clean. rewrite (clean_cells f Hc).
  apply NoDup_map_Str, (proj1 Hc).
Qed.

Lemma username_listed (f : list user_line) (uname : string) :
  clean f ->
  existsb (fun u => eq_str (Username u) uname) (map read_user f) = true
  <-> In uname (usernames f).
Proof.
  intros [_ H]. unfold usernames. rewrite existsb_exists. split.
  - intros [u [Hu E]]. apply in_map_iff in Hu. destruct Hu as [l [<- Hl]].
    rewrite (read_username l (H l Hl)) in E. apply String.eqb_eq in E.
    subst. now apply in_map.
  - intros Hin. apply in_map_iff in Hin. destruct Hin as [l [<- Hl]].
    exists (read_user l). split; [now apply in_map|].
    rewrite (read_username l (H l Hl)). apply String.eqb_refl.
Qed.

(** On a clean file a listed username is turned away and the file is not
    written; a fresh one, with a password, is appended as one row. *)
Lemma add_user_on_clean_file (hash_password : string -> string)
    (uf cr : bool) (today : Clock.datetime) (f : list user_line) (form : add_user_form) :
  clean f ->
  let uname := Py.strip (form_username form) in
  let pwd := Py.strip (form_password form) in
  (In uname (usernames f) ->
   snd (add_user hash_password uf cr today (Some f) form) = Some f /\
   (fst (add_user hash_password uf cr today (Some f) form) = AlreadyExists \/
    fst (add_user hash_password uf cr today (Some f) form) = RequiredMissing)) /\
  (~ In uname (usernames f) -> uname <> "" -> pwd <> "" ->
   snd (add_user hash_password uf cr today (Some f) form)
   = Some (map rewritten_user f
             ++ [mkUserLine uname (Py.strip (form_fullname form)) (hash_password pwd)
                            (Clock.strftime_dmY today)])).
Proof.
  intros Hc uname pwd. unfold add_user. fold uname. fold pwd.
  rewrite (safe_read_users_clean f Hc), values_range_index.
  split.
  - intros Hin. destruct (is_empty uname || is_empty pwd); [now split; [|right]|].
    rewrite (proj2 (username_listed f uname Hc) Hin). now split; [|left].
  - intros Hnot Hu Hp.
    assert (Eu : is_empty uname = false) by now apply String.eqb_neq.
    assert (Ep : is_empty pwd = false) by now apply String.eqb_neq.
    rewrite Eu, Ep. cbn [orb].
    destruct (existsb (fun u => eq_str (Username u) uname) (map read_user f)) eqn:E.
    + exfalso. apply Hnot. now apply (username_listed f uname Hc).
    + rewrite loc_set_range_index, map_app, map_map.
      destruct uf; [destruct cr|]; reflexivity.
Qed.

End CleanUsers.

(** ** app.py: what [load_attendance] returns *)

Section Loading.
Import Pandas Attendance App.

Lemma insert_In (x y : dated) (l : list dated) :
  In y (insert x l) <-> y = x \/ In y l.
Proof.
  induction l as [|z l IH]; simpl.
  - intuition.
  - destruct (ahead z x); simpl; [rewrite IH|]; intuition.
Qed.

(** Sorting keeps the rows. *)
Lemma sort_values_In (y : dated) (l : list dated) : In y (sort_values l) <-> In y l.
Proof.
  unfold sort_values. induction l as [|x l IH]; simpl; [reflexivity|].
  rewrite insert_In, IH. intuition.
Qed.

Lemma length_insert (x : dated) (l : list dated) : length (insert x l) = S (length l).
Proof.
  induction l as [|z l IH]; simpl; [reflexivity|].
  destruct (ahead z x); simpl; [now rewrite IH | reflexivity].
Qed.

Lemma length_sort_values (l : list dated) : length (sort_values l) = length l.
Proof.
  unfold sort_values. induction l as [|x l IH]; simpl; [reflexivity|].
  now rewrite length_insert, IH.
Qed.

(** Without filters and without the mirror, every row of the file is
    returned once. *)
Lemma load_attendance_all (f : list line) :
  exists rows,
    load_attendance (Some f) None None = Returned rows /\
    length rows = length f /\
    forall r, In r rows <-> In r (map read_line f).
Proof.
  unfold load_attendance, read_csv. rewrite values_range_index.
  destruct (map read_line f) as [|r0 rs] eqn:E.
  - exists []. split; [reflexivity|]. split; [|reflexivity].
    apply (f_equal (@length row)) in E. now rewrite length_map in E.
  - eexists. split; [reflexivity|]. split.
    + rewrite length_map, length_sort_values, length_map.
      rewrite <- (length_map read_line f), E. reflexivity.
    + intros r. rewrite in_map_iff. split.
      * intros [p [<- Hp]]. apply (proj1 (sort_values_In _ _)) in Hp.
        apply in_map_iff in Hp. destruct Hp as [r' [<- Hr']]. exact Hr'.
      * intros Hr. exists (r, Dates.to_datetime_dayfirst (Date r)). split; [reflexivity|].
        apply (proj2 (sort_values_In _ _)).
        apply (in_map (fun r => (r, Dates.to_datetime_dayfirst (Date r))) _ _ Hr).
Qed.

(** A name that the CSV reader keeps as text comes back as written, with
    its date and time. *)
Lemma round_trip_of_a_kept_name (file : option (list line)) (name : string)
    (now_d now_t : Clock.datetime) :
  is_na_text name = false ->
  exists rows,
    load_attendance (Some (add_attendance file name now_d now_t)) None None
      = Returned rows /\
    In (mkRow (Str name) (Str (Clock.strftime_dmY now_d)) (Str (Clock.strftime_IMp now_t)))
       rows.
Proof.
  intros Hn.
  destruct (load_attendance_all (add_attendance file name now_d now_t)) as [rows [E [_ H]]].
  exists rows. split; [exact E|]. apply H.
  rewrite add_attendance_appends, map_app. apply in_or_app. right. left.
  unfold read_line, read_cell. cbn [lName lDate lTime].
  now rewrite Hn, strftime_dmY_not_na, strftime_IMp_not_na.
Qed.

End Loading.

Section Report.
Import Pandas Attendance App.

Lemma not_empty_text (s : string) (d : Dates.date) :
  Dates.to_datetime s = Some d -> is_empty s = false.
Proof.
  intros H. unfold is_empty. apply String.eqb_neq. intros ->. discriminate.
Qed.

Lemma some_name_not_all_missing (rows : list row) (r : row) :
  In r rows -> isna (Name r) = false -> forallb (fun r => isna (Name r)) rows = false.
Proof.
  intros Hin Hr. destruct (forallb (fun r => isna (Name r)) rows) eqn:E; [|reflexivity].
  rewrite forallb_forall in E. rewrite (E r Hin) in Hr. discriminate.
Qed.

(** The rows a report selects: for a name of plain text and two bounds in
    the layout of the form, with at least one name present in the file, the
    rows returned are the rows of the file whose Name contains the text,
    letter case apart, and whose date lies between the bounds, both
    included. *)
Lemma report_selects_name_and_range (f : list line) (flt : filters) (a b : Dates.date)
    (r0 : row) :
  let name := Py.strip (f_name flt) in
  is_empty name = false -> is_plain_text name = true ->
  Dates.to_datetime (Py.strip (f_date_from flt)) = Some a ->
  Dates.to_datetime (Py.strip (f_date_to flt)) = Some b ->
  In r0 (map read_line f) -> isna (Name r0) = false ->
  exists rows,
    load_attendance (Some f) None (Some flt) = Returned rows /\
    forall r, In r rows <->
              In r (map read_line f) /\ str_contains name (Name r) = true /\
              exists d, Dates.to_datetime_dayfirst (Date r) = Some d /\
                        Dates.date_leb a d = true /\ Dates.date_leb d b = true.
Proof.
  intros name Hne Hplain Ha Hb Hin Hr0.
  unfold load_attendance, read_csv. rewrite values_range_index.
  destruct (map read_line f) as [|x xs] eqn:E; [contradiction|].
  fold name. rewrite Hne, (some_name_not_all_missing _ _ Hin Hr0), Hplain.
  rewrite (not_empty_text _ _ Ha), (not_empty_text _ _ Hb).
  unfold keep_from, keep_to. rewrite Ha, Hb.
  eexists. split; [reflexivity|].
  intros r. rewrite in_map_iff. split.
  - intros [p [<- Hp]]. apply (proj1 (sort_values_In _ _)) in Hp.
    apply filter_In in Hp. destruct Hp as [Hp Hto].
    apply filter_In in Hp. destruct Hp as [Hp Hfrom].
    apply filter_In in Hp. destruct Hp as [Hp Hname].
    apply in_map_iff in Hp. destruct Hp as [r' [<- Hr']]. cbn [fst snd] in *.
    split; [exact Hr'|]. split; [exact Hname|].
    destruct (Dates.to_datetime_dayfirst (Date r')) as [d|]; [|discriminate].
    exists d. now repeat split.
  - intros [Hr [Hname [d [Hd [Hfrom Hto]]]]].
    exists (r, Dates.to_datetime_dayfirst (Date r)). split; [reflexivity|].
    apply (proj2 (sort_values_In _ _)).
    apply filter_In. split; [|cbn [snd]; now rewrite Hd].
    apply filter_In. split; [|cbn [snd]; now rewrite Hd].
    apply filter_In. split; [|exact Hname].
    apply (in_map (fun r => (r, Dates.to_datetime_dayfirst (Date r))) _ _ Hr).
Qed.

End Report.

(** * Further code of the repository *)

(** ** capture_faces.py *)

Module CaptureFaces.

(** One iteration of [while True]: the result of [cap.read()] ([None] when
    [ret] is false), giving for each detected face whether its crop has
    [crop.size > 0], and whether [q] is pressed at [cv2.waitKey]. *)
Record frame_input : Type := mkFrame {
  grabbed : option (list bool);
  key_q : bool
}.

(** [count], and the numbers n of the files {folder}/{n}.jpg written so
    far, oldest first. *)
Record state : Type := mkState {
  count : nat;
  saved : list nat
}.

Inductive status : Type :=
| Streaming    (* still inside while True *)
| Released.    (* left the loop; cap.release() has run *)

Definition start : state := mkState 0 [].

(** Body of [for face in faces]. *)
Definition save_face (st : state) (crop_nonempty : bool) : state :=
  if crop_nonempty
  then mkState (S (count st)) (saved st ++ [S (count st)])
  else st.

Fixpoint main_loop (st : state) (frames : list frame_input) : status * state :=
  match frames with
  | [] => (Streaming, st)
  | fr :: rest =>
      match grabbed fr with
      | None => (Released, st)
      | Some faces =>
          let st' := fold_left save_face faces st in
          if key_q fr || Nat.leb 80 (count st')
          then (Released, st')
          else main_loop st' rest
      end
  end.

(** The crops with [size > 0] among the faces of the frames. *)
Definition crops (faces : list bool) : nat := length (filter (fun b => b) faces).

End CaptureFaces.

Section Capture.
Import CaptureFaces.
Local Arguments Nat.leb : simpl never.

Lemma save_faces_count (faces : list bool) :
  forall st, count (fold_left save_face faces st) = count st + crops faces.
Proof.
  unfold crops. induction faces as [|b faces IH]; intros st; simpl; [lia|].
  rewrite IH. destruct b; simpl; lia.
Qed.

Lemma save_faces_numbers (faces : list bool) :
  forall st, saved st = seq 1 (count st) ->
             saved (fold_left save_face faces st)
             = seq 1 (count (fold_left save_face faces st)).
Proof.
  induction faces as [|b faces IH]; intros st H; cbn [fold_left]; [assumption|].
  apply IH. destruct b; [|assumption].
  unfold save_face. cbn [saved count]. rewrite H, seq_S. reflexivity.
Qed.

Lemma main_loop_numbers (frames : list frame_input) :
  forall st, saved st = seq 1 (count st) ->
             saved (snd (main_loop st frames)) = seq 1 (count (snd (main_loop st frames))).
Proof.
  induction frames as [|fr frames IH]; intros st H; simpl; [assumption|].
  destruct (grabbed fr) as [faces|]; simpl; [|assumption].
  destruct (key_q fr || Nat.leb 80 (count (fold_left save_face faces st))); simpl.
  - now apply save_faces_numbers.
  - apply IH. now apply save_faces_numbers.
Qed.

Lemma crops_le_length (faces : list bool) : crops faces <= length faces.
Proof. unfold crops. apply filter_length_le. Qed.

Lemma main_loop_bound (m : nat) (frames : list frame_input) :
  (forall fr faces, In fr frames -> grabbed fr = Some faces -> length faces <= m) ->
  forall st, count st < 80 -> count (snd (main_loop st frames)) < 80 + m.
Proof.
  induction frames as [|fr frames IH]; intros Hm st Hst; simpl; [lia|].
  destruct (grabbed fr) as [faces|] eqn:Eg; simpl; [|lia].
  assert (Hc : count (fold_left save_face faces st) < 80 + m).
  { rewrite save_faces_count.
    pose proof (crops_le_length faces).
    pose proof (Hm fr faces (or_introl eq_refl) Eg). lia. }
  destruct (key_q fr); simpl; [exact Hc|].
  destruct (Nat.leb 80 (count (fold_left save_face faces st))) eqn:E; simpl; [exact Hc|].
  apply IH.
  - intros fr' faces' Hin. apply Hm. now right.
  - apply Nat.leb_gt in E. exact E.
Qed.

Lemma main_loop_ends (frames : list frame_input) :
  (forall fr, In fr frames -> exists faces, grabbed fr = Some faces /\ 1 <= crops faces) ->
  forall st, count st < 80 -> 80 <= count st + length frames ->
    fst (main_loop st frames) = Released /\
    (forallb (fun fr => negb (key_q fr)) frames = true ->
     80 <= count (snd (main_loop st frames))).
Proof.
  induction frames as [|fr frames IH]; intros Hgood st Hst Hlen.
  - cbn [length] in Hlen. lia.
  - destruct (Hgood fr (or_introl eq_refl)) as [faces [Eg Hc]].
    cbn [main_loop]. rewrite Eg.
    destruct (key_q fr) eqn:Ek; cbn [orb].
    + split; [reflexivity|]. cbn [forallb]. rewrite Ek. discriminate.
    + destruct (Nat.leb 80 (count (fold_left save_face faces st))) eqn:E.
      * split; [reflexivity|]. intros _. now apply Nat.leb_le in E.
      * apply Nat.leb_gt in E.
        destruct (IH (fun fr' H => Hgood fr' (or_intror H)) (fold_left save_face faces st))
          as [H1 H2].
        { exact E. }
        { rewrite save_faces_count. cbn [length] in Hlen. lia. }
        split; [exact H1|].
        cbn [forallb]. rewrite Ek. cbn [negb andb]. exact H2.
Qed.

End Capture.

(** X1. A capture session numbers its files 1, 2, ..., count in the order
    in which they are written: no number is skipped and none is written
    twice. *)
Theorem capture_numbers_files_consecutively :
  forall frames : list CaptureFaces.frame_input,
    let st := snd (CaptureFaces.main_loop CaptureFaces.start frames) in
    CaptureFaces.saved st = seq 1 (CaptureFaces.count st) /\
    length (CaptureFaces.saved st) = CaptureFaces.count st /\
    NoDup (CaptureFaces.saved st).
Proof.
  intros frames st.
  assert (H : CaptureFaces.saved st = seq 1 (CaptureFaces.count st))
    by now apply main_loop_numbers.
  split; [exact H|]. rewrite H. split; [apply length_seq | apply seq_NoDup].
Qed.

(** X2. A session never starts a frame with 80 images or more: when no
    frame shows more than m faces, it ends with fewer than 80 + m images
    (at most 80 with one face per frame). *)
Theorem capture_stops_at_eighty :
  forall (m : nat) (frames : list CaptureFaces.frame_input),
    (forall fr faces, In fr frames -> CaptureFaces.grabbed fr = Some faces ->
                      length faces <= m) ->
    CaptureFaces.count (snd (CaptureFaces.main_loop CaptureFaces.start frames)) < 80 + m.
Proof.
  intros m frames H. apply main_loop_bound; [exact H | simpl; lia].
Qed.

Definition one_face_frame : CaptureFaces.frame_input :=
  CaptureFaces.mkFrame (Some [true]) false.

Lemma capture_stops_at_eighty_witness :
  (forall fr faces, In fr (repeat one_face_frame 100) ->
                    CaptureFaces.grabbed fr = Some faces -> length faces <= 1) /\
  CaptureFaces.count
    (snd (CaptureFaces.main_loop CaptureFaces.start (repeat one_face_frame 100))) < 80 + 1.
Proof.
  assert (H : forall fr faces, In fr (repeat one_face_frame 100) ->
                               CaptureFaces.grabbed fr = Some faces -> length faces <= 1).
  { intros fr faces Hin. apply repeat_spec in Hin. subst fr.
    intros E. inversion E. simpl. lia. }
  split; [exact H|].
  exact (capture_stops_at_eighty 1 (repeat one_face_frame 100) H).
Defined.

(** X3. A session ends by itself: over 80 or more frames that are all read
    and all show a non-empty crop, the loop leaves and releases the camera,
    and, unless [q] was pressed, it has saved at least 80 images. *)
Theorem capture_ends_within_eighty_good_frames :
  forall frames : list CaptureFaces.frame_input,
    (forall fr, In fr frames ->
       exists faces, CaptureFaces.grabbed fr = Some faces /\ 1 <= CaptureFaces.crops faces) ->
    80 <= length frames ->
    fst (CaptureFaces.main_loop CaptureFaces.start frames) = CaptureFaces.Released /\
    (forallb (fun fr => negb (CaptureFaces.key_q fr)) frames = true ->
     80 <= CaptureFaces.count (snd (CaptureFaces.main_loop CaptureFaces.start frames))).
Proof.
  intros frames Hgood Hlen.
  apply (main_loop_ends frames Hgood CaptureFaces.start); simpl; lia.
Qed.

Lemma capture_ends_within_eighty_good_frames_witness :
  (forall fr, In fr (repeat one_face_frame 80) ->
     exists faces, CaptureFaces.grabbed fr = Some faces /\ 1 <= CaptureFaces.crops faces) /\
  80 <= length (repeat one_face_frame 80) /\
  fst (CaptureFaces.main_loop CaptureFaces.start (repeat one_face_frame 80))
    = CaptureFaces.Released.
Proof.
  assert (H : forall fr, In fr (repeat one_face_frame 80) ->
     exists faces, CaptureFaces.grabbed fr = Some faces /\ 1 <= CaptureFaces.crops faces).
  { intros fr Hin. apply repeat_spec in Hin. subst fr.
    exists [true]. split; [reflexivity | apply Nat.le_refl]. }
  assert (L : 80 <= length (repeat one_face_frame 80)).
  { rewrite repeat_length. apply Nat.le_refl. }
  split; [exact H|]. split; [exact L|].
  exact (proj1 (capture_ends_within_eighty_good_frames (repeat one_face_frame 80) H L)).
Defined.

(** ** attendance_system_pro.py: what the loop leaves in the stores *)

Section ProStores.
Import Pandas Attendance AttendanceSystemPro.

Lemma length_strftime_IMSp (t : Clock.datetime) :
  String.length (Clock.strftime_IMSp t) = 11.
Proof.
  unfold Clock.strftime_IMSp, Clock.am_pm. repeat rewrite length_append.
  destruct (Nat.ltb (Clock.hour t) 12); reflexivity.
Qed.

Lemma strftime_IMSp_not_na (t : Clock.datetime) : is_na_text (Clock.strftime_IMSp t) = false.
Proof.
  destruct (is_na_text (Clock.strftime_IMSp t)) eqn:E; [|reflexivity].
  apply is_na_text_length in E. rewrite length_strftime_IMSp in E. lia.
Qed.

(** The line the loop writes for a face. *)
Definition record_of (f : face) : line :=
  mkLine "Aman" (Clock.strftime_dmY (date_now f)) (Clock.strftime_IMSp (time_now f)).

Lemma rewritten_record (f : face) : rewritten (record_of f) = record_of f.
Proof.
  unfold rewritten, record_of, write_row, read_line, read_cell.
  cbn [lName lDate lTime].
  rewrite strftime_dmY_not_na, strftime_IMSp_not_na.
  reflexivity.
Qed.

Lemma read_record (f : face) :
  read_line (record_of f)
  = mkRow (Str "Aman") (Str (Clock.strftime_dmY (date_now f)))
          (Str (Clock.strftime_IMSp (time_now f))).
Proof.
  unfold record_of, read_line, read_cell. cbn [lName lDate lTime].
  rewrite strftime_dmY_not_na, strftime_IMSp_not_na.
  reflexivity.
Qed.

(** A face leaves the file and the mirror alone, or appends its record to
    the file and at most to the mirror. *)
Lemma process_face_stores (uf : bool) (w : world) (f : face) :
  (csv (process_face uf w f) = csv w /\ cloud (process_face uf w f) = cloud w) \/
  (csv (process_face uf w f) = map rewritten (csv w) ++ [record_of f] /\
   (cloud (process_face uf w f) = cloud w \/
    cloud (process_face uf w f) = cloud w ++ [record_of f])).
Proof.
  unfold process_face.
  destruct (crop_size_zero f); [now left|].
  unfold classify.
  destruct (Float.gt (similarity f) THRESHOLD); [|now left].
  change (String.eqb "Aman" "Aman") with true. cbv iota.
  destruct (already_marked (read_csv (csv w)) (Clock.strftime_dmY (date_now f)));
    [now left|].
  right. cbn [negb].
  assert (Hcsv : to_csv (loc_set (read_csv (csv w)) (length (read_csv (csv w)))
                   (mkRow (Str "Aman") (Str (Clock.strftime_dmY (date_now f)))
                          (Str (Clock.strftime_IMSp (time_now f)))))
                 = map rewritten (csv w) ++ [record_of f]).
  { unfold to_csv, read_csv. rewrite loc_set_range_index.
    rewrite map_app, map_map. reflexivity. }
  destruct uf; [destruct (cloud_raises f)|]; cbn [csv cloud]; rewrite Hcsv.
  - split; [reflexivity | now left].
  - split; [reflexivity | now right].
  - split; [reflexivity | now left].
Qed.

(** The file read now is the file read at [w0] followed by rows of Aman;
    the mirror is the mirror at [w0] followed by documents that are lines
    of the file. *)
Definition grown_from (w0 w : world) : Prop :=
  (exists added, map read_line (csv w) = map read_line (csv w0) ++ added /\
                 Forall (fun r => Name r = Str "Aman") added) /\
  (exists docs, cloud w = cloud w0 ++ docs /\
                Forall (fun d => In d (csv w) /\ rewritten d = d) docs).

Lemma grown_from_refl (w : world) : grown_from w w.
Proof.
  split.
  - exists []. split; [now rewrite app_nil_r | constructor].
  - exists []. split; [now rewrite app_nil_r | constructor].
Qed.

Lemma grown_from_face (uf : bool) (w0 w : world) (f : face) :
  grown_from w0 w -> grown_from w0 (process_face uf w f).
Proof.
  intros [[added [Ha Fa]] [docs [Hd Fd]]].
  destruct (process_face_stores uf w f) as [[Ec Ed] | [Ec Ed]].
  - split.
    + exists added. now rewrite Ec.
    + exists docs. now rewrite Ec, Ed.
  - assert (Fd' : Forall (fun d => In d (csv (process_face uf w f)) /\ rewritten d = d) docs).
    { rewrite Ec. apply Forall_forall. intros d Hin.
      rewrite Forall_forall in Fd. destruct (Fd d Hin) as [H1 H2].
      split; [|exact H2]. apply in_or_app. left. rewrite <- H2. now apply in_map. }
    split.
    + exists (added ++ [read_line (record_of f)]). split.
      * rewrite Ec, map_app, read_rewritten_all, Ha, <- app_assoc. reflexivity.
      * apply Forall_app. split; [exact Fa|].
        constructor; [|constructor]. now rewrite read_record.
    + destruct Ed as [Ed | Ed].
      * exists docs. now rewrite Ed.
      * exists (docs ++ [record_of f]). split.
        -- now rewrite Ed, Hd, <- app_assoc.
        -- apply Forall_app. split; [exact Fd'|].
           constructor; [|constructor]. split; [|apply rewritten_record].
           rewrite Ec. apply in_or_app. right. now left.
Qed.

Lemma grown_from_faces (uf : bool) (w0 : world) (fs : list face) :
  forall w, grown_from w0 w -> grown_from w0 (process_faces uf w fs).
Proof.
  unfold process_faces. induction fs as [|f fs IH]; intros w H; simpl; [assumption|].
  apply IH. now apply grown_from_face.
Qed.

Lemma grown_from_loop (uf : bool) (w0 : world) (frames : list frame_input) :
  forall w, grown_from w0 w -> grown_from w0 (snd (main_loop uf w frames)).
Proof.
  induction frames as [|fr frames IH]; intros w H; simpl; [assumption|].
  destruct (grabbed fr) as [faces|]; simpl; [|assumption].
  destruct (key_q fr); simpl.
  - now apply grown_from_faces.
  - apply IH. now apply grown_from_faces.
Qed.

End ProStores.

(** X5. The mirror never holds a record that the file lacks: every
    document a run adds to the cloud collection is, at the end of the run,
    a line of attendance.csv. *)
Theorem mirror_is_within_the_file :
  forall (uf : bool) (w : AttendanceSystemPro.world)
         (frames : list AttendanceSystemPro.frame_input),
    exists docs : list Attendance.line,
      AttendanceSystemPro.cloud (snd (AttendanceSystemPro.main_loop uf w frames))
      = AttendanceSystemPro.cloud w ++ docs /\
      forall d, In d docs ->
                In d (AttendanceSystemPro.csv (snd (AttendanceSystemPro.main_loop uf w frames))).
Proof.
  intros uf w frames.
  destruct (proj2 (grown_from_loop uf w frames w (grown_from_refl w))) as [docs [E F]].
  exists docs. split; [exact E|].
  intros d Hin. rewrite Forall_forall in F. exact (proj1 (F d Hin)).
Qed.

Section MarkedByHand.
Import Pandas Attendance AttendanceSystemPro.

Lemma marked_face_is_skipped (uf : bool) (w : world) (f : face) :
  already_marked (read_csv (csv w)) (Clock.strftime_dmY (date_now f)) = true ->
  process_face uf w f = w.
Proof.
  intros H. unfold process_face. rewrite H. cbn [negb].
  destruct (crop_size_zero f); [reflexivity|].
  now destruct (String.eqb (classify (similarity f)) "Aman").
Qed.

Lemma hand_mark_is_seen (file : option (list line)) (now_d now_t : Clock.datetime) :
  already_marked (read_csv (App.add_attendance file "Aman" now_d now_t))
                 (Clock.strftime_dmY now_d) = true.
Proof.
  unfold already_marked, read_csv. rewrite values_range_index.
  rewrite add_attendance_appends, map_app, existsb_app.
  cbn [map existsb]. rewrite read_marked_line. cbn [Name Date eq_str read_cell].
  change (read_cell "Aman") with (Str "Aman"). cbn [eq_str].
  rewrite !String.eqb_refl. cbn [andb orb]. apply orb_true_r.
Qed.

Lemma marked_faces_are_skipped (uf : bool) (w : world) (d : string) (fs : list face) :
  already_marked (read_csv (csv w)) d = true ->
  (forall f, In f fs -> Clock.strftime_dmY (date_now f) = d) ->
  process_faces uf w fs = w.
Proof.
  intros Hm. unfold process_faces. induction fs as [|f fs IH]; intros Hd; simpl; [reflexivity|].
  rewrite marked_face_is_skipped.
  - apply IH. intros f' Hin. apply Hd. now right.
  - now rewrite (Hd f (or_introl eq_refl)).
Qed.

End MarkedByHand.

(** X6. A manual mark under the name Aman counts for the loop: when
    attendance.csv is the file left by [add_attendance("Aman")], the
    recognition loop changes nothing, in the file, the mirror or the trace,
    over frames whose faces are all seen on the date of that mark. *)
Theorem hand_mark_of_aman_silences_the_loop :
  forall (uf : bool) (file : option (list Attendance.line))
         (now_d now_t : Clock.datetime) (w : AttendanceSystemPro.world)
         (frames : list AttendanceSystemPro.frame_input),
    AttendanceSystemPro.csv w = App.add_attendance file "Aman" now_d now_t ->
    (forall fr faces f,
        In fr frames -> AttendanceSystemPro.grabbed fr = Some faces -> In f faces ->
        Clock.strftime_dmY (AttendanceSystemPro.date_now f) = Clock.strftime_dmY now_d) ->
    snd (AttendanceSystemPro.main_loop uf w frames) = w.
Proof.
  intros uf file now_d now_t w frames Hcsv.
  assert (Hm : AttendanceSystemPro.already_marked
                 (Attendance.read_csv (AttendanceSystemPro.csv w))
                 (Clock.strftime_dmY now_d) = true)
    by (rewrite Hcsv; apply hand_mark_is_seen).
  induction frames as [|fr frames IH]; intros Hd; simpl; [reflexivity|].
  destruct (AttendanceSystemPro.grabbed fr) as [faces|] eqn:Eg; simpl; [|reflexivity].
  rewrite (marked_faces_are_skipped uf w (Clock.strftime_dmY now_d) faces Hm).
  - destruct (AttendanceSystemPro.key_q fr); simpl; [reflexivity|].
    apply IH. intros fr' faces' f Hin. apply Hd. now right.
  - intros f Hin. exact (Hd fr faces f (or_introl eq_refl) Eg Hin).
Qed.

Definition world_after_hand_mark : AttendanceSystemPro.world :=
  AttendanceSystemPro.mkWorld (App.add_attendance (Some []) "Aman" noon noon) [] [].

Lemma hand_mark_of_aman_silences_the_loop_witness :
  snd (AttendanceSystemPro.main_loop true world_after_hand_mark
         [ AttendanceSystemPro.mkFrame (Some [same_face (9 # 10)]) false ])
  = world_after_hand_mark.
Proof.
  apply (hand_mark_of_aman_silences_the_loop true (Some []) noon noon).
  - reflexivity.
  - intros fr faces f [<- | []] E Hin. inversion E; subst.
    destruct Hin as [<- | []]. reflexivity.
Defined.

(** ** Dates through the store *)

Module Calendar.

(** The day of a clock reading. *)
Definition day_of (t : Clock.datetime) : Dates.date :=
  (Clock.year t, Clock.month t, Clock.day t).

(** A reading of [datetime.now()]: a day of the calendar, in a year of at
    most four digits. *)
Definition calendar_day (t : Clock.datetime) : Prop :=
  Clock.year t < 10 * 1000 /\
  1 <= Clock.day t <= Dates.days_in_month (Clock.year t) (Clock.month t).

(** Dates as this program writes them: missing, or a day of the calendar
    in the layout DD-MM-YYYY. *)
Definition written_date (s : string) : Prop :=
  Pandas.is_na_text s = true \/ exists d, Dates.parse_dmY s = Some d.

End Calendar.

Section DateRoundTrip.
Import Clock Dates Calendar.

Lemma digit_val_digit (n : nat) : digit_val (digit n) = Some (n mod 10).
Proof.
  unfold digit_val, digit.
  assert (Hlt : n mod 10 < 10) by (apply Nat.mod_upper_bound; discriminate).
  rewrite nat_ascii_embedding by lia.
  replace (Nat.leb 48 (48 + n mod 10)) with true by (symmetry; apply Nat.leb_le; lia).
  replace (Nat.leb (48 + n mod 10) 57) with true by (symmetry; apply Nat.leb_le; lia).
  cbn [andb]. f_equal. lia.
Qed.

Lemma two_digits (d : nat) : d < 100 -> number [digit (d / 10); digit d] 0 = Some d.
Proof.
  intros H. cbn [number]. rewrite !digit_val_digit. f_equal.
  assert (H1 : (d / 10) mod 10 = d / 10).
  { apply Nat.mod_small. apply Nat.Div0.div_lt_upper_bound. lia. }
  pose proof (Nat.div_mod_eq d 10). lia.
Qed.

Lemma four_digits (y : nat) :
  y < 10 * 1000 ->
  number [digit (y / 1000); digit (y / 100); digit (y / 10); digit y] 0 = Some y.
Proof.
  intros H. cbn [number]. rewrite !digit_val_digit. f_equal.
  assert (E2 : y / 100 = y / 10 / 10) by (now rewrite Nat.Div0.div_div).
  assert (E3 : y / 1000 = y / 10 / 10 / 10) by (now rewrite !Nat.Div0.div_div).
  assert (H3 : (y / 1000) mod 10 = y / 1000).
  { apply Nat.mod_small. apply Nat.Div0.div_lt_upper_bound. lia. }
  pose proof (Nat.div_mod_eq y 10).
  pose proof (Nat.div_mod_eq (y / 10) 10).
  pose proof (Nat.div_mod_eq (y / 10 / 10) 10).
  rewrite H3, E3, E2 in *. lia.
Qed.

Lemma days_in_month_bounds (y m : nat) :
  1 <= days_in_month y m -> 1 <= m <= 12 /\ days_in_month y m <= 31.
Proof.
  unfold days_in_month.
  do 13 (destruct m as [|m]; [try destruct (is_leap y); simpl; lia|]).
  simpl. lia.
Qed.

(** The text of a day parses back to that day. *)
Lemma parse_strftime (t : datetime) :
  calendar_day t -> parse_dmY (strftime_dmY t) = Some (day_of t).
Proof.
  intros [Hy [Hd1 Hd2]].
  destruct (days_in_month_bounds (year t) (month t)) as [[Hm1 Hm2] H31]; [lia|].
  unfold parse_dmY, strftime_dmY, pad4, pad2.
  cbn [String.append list_ascii_of_string].
  rewrite (two_digits (day t)) by lia.
  rewrite (two_digits (month t)) by lia.
  rewrite (four_digits (year t) Hy).
  unfold valid, day_of.
  replace (Nat.leb 1 (day t)) with true by (symmetry; now apply Nat.leb_le).
  replace (Nat.leb (day t) (days_in_month (year t) (month t))) with true
    by (symmetry; now apply Nat.leb_le).
  reflexivity.
Qed.

End DateRoundTrip.

Lemma noon_is_a_calendar_day : Calendar.calendar_day noon.
Proof.
  unfold Calendar.calendar_day, noon. cbn [Clock.year Clock.month Clock.day].
  change (Dates.days_in_month 2026 11) with 30. lia.
Qed.

Section DatedReport.
Import Pandas Attendance App Calendar.

(** A report without a name: the rows of the file whose date lies between
    the bounds. *)
Lemma report_selects_range (f : list line) (flt : filters) (a b : Dates.date) :
  Py.strip (f_name flt) = "" ->
  Dates.to_datetime (Py.strip (f_date_from flt)) = Some a ->
  Dates.to_datetime (Py.strip (f_date_to flt)) = Some b ->
  exists rows,
    load_attendance (Some f) None (Some flt) = Returned rows /\
    forall r, In r rows <->
              In r (map read_line f) /\
              exists d, Dates.to_datetime_dayfirst (Date r) = Some d /\
                        Dates.date_leb a d = true /\ Dates.date_leb d b = true.
Proof.
  intros Hn Ha Hb.
  unfold load_attendance, read_csv. rewrite values_range_index.
  destruct (map read_line f) as [|x xs] eqn:E.
  - exists []. split; [reflexivity|]. intros r. simpl. intuition.
  - rewrite Hn. cbn [is_empty String.eqb].
    rewrite (not_empty_text _ _ Ha), (not_empty_text _ _ Hb).
    unfold keep_from, keep_to. rewrite Ha, Hb.
    eexists. split; [reflexivity|].
    intros r. rewrite in_map_iff. split.
    + intros [p [<- Hp]]. apply (proj1 (sort_values_In _ _)) in Hp.
      apply filter_In in Hp. destruct Hp as [Hp Hto].
      apply filter_In in Hp. destruct Hp as [Hp Hfrom].
      apply in_map_iff in Hp. destruct Hp as [r' [<- Hr']]. cbn [fst snd] in *.
      split; [exact Hr'|].
      destruct (Dates.to_datetime_dayfirst (Date r')) as [d|]; [|discriminate].
      exists d. now repeat split.
    + intros [Hr [d [Hd [Hfrom Hto]]]].
      exists (r, Dates.to_datetime_dayfirst (Date r)). split; [reflexivity|].
      apply (proj2 (sort_values_In _ _)).
      apply filter_In. split; [|cbn [snd]; now rewrite Hd].
      apply filter_In. split; [|cbn [snd]; now rewrite Hd].
      apply (in_map (fun r => (r, Dates.to_datetime_dayfirst (Date r))) _ _ Hr).
Qed.

End DatedReport.

(** X8. A manual mark shows in a dated report exactly when its day is
    within the bounds: after [add_attendance] on a calendar day D, a report
    without a name filter and with bounds a and b in the layout of the form
    returns a row with the date and time just written when a <= D <= b,
    and no row with that date otherwise. The store is one whose dates are
    missing or days in the layout DD-MM-YYYY, as this program writes them. *)
Theorem hand_mark_shows_in_its_date_range :
  forall (file : option (list Attendance.line)) (name : string)
         (now_d now_t : Clock.datetime) (flt : App.filters) (a b : Dates.date),
    Calendar.calendar_day now_d ->
    (forall l, In l (lines_of file) -> Calendar.written_date (Attendance.lDate l)) ->
    Py.strip (App.f_name flt) = "" ->
    Dates.to_datetime (Py.strip (App.f_date_from flt)) = Some a ->
    Dates.to_datetime (Py.strip (App.f_date_to flt)) = Some b ->
    exists rows,
      App.load_attendance (Some (App.add_attendance file name now_d now_t)) None (Some flt)
        = App.Returned rows /\
      (Dates.date_leb a (Calendar.day_of now_d) && Dates.date_leb (Calendar.day_of now_d) b
         = true ->
       exists r, In r rows /\
                 Attendance.Date r = Pandas.Str (Clock.strftime_dmY now_d) /\
                 Attendance.Time r = Pandas.Str (Clock.strftime_IMp now_t)) /\
      (Dates.date_leb a (Calendar.day_of now_d) && Dates.date_leb (Calendar.day_of now_d) b
         = false ->
       forall r, In r rows -> Attendance.Date r <> Pandas.Str (Clock.strftime_dmY now_d)).
Proof.
  intros file name now_d now_t flt a b Hday _ Hn Ha Hb.
  destruct (report_selects_range (App.add_attendance file name now_d now_t) flt a b Hn Ha Hb)
    as [rows [E H]].
  exists rows. split; [exact E|].
  assert (Hparse : Dates.to_datetime_dayfirst (Pandas.Str (Clock.strftime_dmY now_d))
                   = Some (Calendar.day_of now_d)).
  { cbn [Dates.to_datetime_dayfirst]. now apply parse_strftime. }
  split.
  - intros Hin. apply andb_true_iff in Hin. destruct Hin as [H1 H2].
    exists (Attendance.mkRow (Pandas.read_cell name) (Pandas.Str (Clock.strftime_dmY now_d))
                             (Pandas.Str (Clock.strftime_IMp now_t))).
    split; [|split; reflexivity].
    apply H. split.
    + rewrite add_attendance_appends, map_app. apply in_or_app. right. left.
      apply read_marked_line.
    + exists (Calendar.day_of now_d). cbn [Attendance.Date]. now repeat split.
  - intros Hout r Hr Hdate.
    apply H in Hr. destruct Hr as [_ [d [Hd [H1 H2]]]].
    rewrite Hdate, Hparse in Hd. inversion Hd; subst d.
    rewrite H1, H2 in Hout. discriminate.
Qed.

Definition november : App.filters := App.mkFilters "" "2026-11-01" "2026-11-30".

Lemma hand_mark_shows_in_its_date_range_witness :
  exists rows,
    App.load_attendance (Some (App.add_attendance (Some []) "ravi" noon noon)) None
      (Some november) = App.Returned rows /\
    (Dates.date_leb (2026, 11, 1) (Calendar.day_of noon)
       && Dates.date_leb (Calendar.day_of noon) (2026, 11, 30) = true ->
     exists r, In r rows /\
               Attendance.Date r = Pandas.Str (Clock.strftime_dmY noon) /\
               Attendance.Time r = Pandas.Str (Clock.strftime_IMp noon)) /\
    (Dates.date_leb (2026, 11, 1) (Calendar.day_of noon)
       && Dates.date_leb (Calendar.day_of noon) (2026, 11, 30) = false ->
     forall r, In r rows -> Attendance.Date r <> Pandas.Str (Clock.strftime_dmY noon)).
Proof.
  apply (hand_mark_shows_in_its_date_range (Some []) "ravi" noon noon november
           (2026, 11, 1) (2026, 11, 30)).
  - exact noon_is_a_calendar_day.
  - intros l [].
  - reflexivity.
  - reflexivity.
  - reflexivity.
Defined.

(** ** app.py: logging in *)

Module AppLogin.
Import Pandas App.

Definition ADMIN_USER : string := "admin".
Definition ADMIN_PASS : string := "1234".

(** [str(value)] of a cell. *)
Definition str (c : cell) : string :=
  match c with
  | NaN => "nan"
  | Str s => s
  end.

Inductive login_result : Type :=
| AsAdmin
| AsEmployee
| Refused.      (* Invalid username or password *)

(** [users[users["Username"] == u].iloc[0]], when [u in users["Username"].values]. *)
Definition find_user (df : frame user) (u : string) : option user :=
  find (fun r => eq_str (Username r) u) (values df).

(** The check of a password against the local file, shared by [login] and
    [api_login]. *)
Definition local_check (hash_password : string -> string)
    (file : option (list user_line)) (u p : string) : bool :=
  match find_user (safe_read_users file) u with
  | Some row =>
      let stored := str (Password row) in
      negb (is_empty stored) && String.eqb (hash_password p) stored
  | None => false
  end.

(** [api_login]: the username and password of the request, a missing
    field being the empty text. *)
Definition api_login (hash_password : string -> string)
    (file : option (list user_line)) (username password : string) : login_result :=
  let username := Py.strip username in
  let password := Py.strip password in
  if String.eqb username ADMIN_USER && String.eqb password ADMIN_PASS then AsAdmin
  else if local_check hash_password file username password then AsEmployee
  else Refused.

(** What [login] stores in the session on a POST. [cloud_doc] is the
    document users/u of the cloud store, as its password and role, when the
    mirror is on and the document exists; [None] also stands for a mirror
    that is off or raises. *)
Inductive session : Type :=
| SessionAdmin                 (* role admin, checked against the constants *)
| SessionEmployee              (* role employee, checked against users.csv *)
| SessionCloud (role : string) (* the role of the cloud document *)
| NoSession.                   (* Invalid username or password *)

Definition login (hash_password : string -> string)
    (file : option (list user_line)) (cloud_doc : option (string * string))
    (username password : string) : session :=
  let u := Py.strip username in
  let p := Py.strip password in
  if String.eqb u ADMIN_USER && String.eqb p ADMIN_PASS then SessionAdmin
  else if local_check hash_password file u p then SessionEmployee
  else
    match cloud_doc with
    | Some (stored, role) =>
        if String.eqb stored (hash_password p) then SessionCloud role else NoSession
    | None => NoSession
    end.

End AppLogin.

(** ** Text that pandas keeps *)

Module PandasText.

(** Characters of which numbers are written. *)
Definition numeric_char (c : ascii) : bool :=
  let n := nat_of_ascii c in
  (Nat.leb 48 n && Nat.leb n 57)
  || existsb (Ascii.eqb c) ["+"; "-"; "."; "e"; "E"; "_"; " "; "009"]%char.

(** Words that read as a float or as a boolean. *)
Definition special_words : list string :=
  [ "inf"; "+inf"; "-inf"; "infinity"; "+infinity"; "-infinity"; "true"; "false" ].

(** A sufficient condition for [pd.read_csv] to keep a cell as its text,
    whatever the other cells of its column: the text is not one read as
    missing, it has a character that no number has, and it is no word for
    infinity or for a boolean. *)
Definition keeps_text (s : string) : bool :=
  negb (Pandas.is_na_text s)
  && existsb (fun c => negb (numeric_char c)) (list_ascii_of_string s)
  && negb (existsb (String.eqb (Py.lower s)) special_words).

End PandasText.

Section ReadUsers.
Import Pandas App.

Lemma drop_duplicates_last_incl (df : frame user) (p : nat * user) :
  In p (drop_duplicates_last df) -> In p df.
Proof.
  induction df as [|q df IH]; [intros []|].
  cbn [drop_duplicates_last].
  destruct (existsb (fun q' => cell_eqb (Username (snd q')) (Username (snd q))) df).
  - intros H. right. now apply IH.
  - intros [<- | H]; [now left | right; now apply IH].
Qed.

Lemma drop_duplicates_last_NoDup (df : frame user) :
  NoDup (map (fun p => Username (snd p)) (drop_duplicates_last df)).
Proof.
  induction df as [|q df IH]; [constructor|].
  cbn [drop_duplicates_last].
  destruct (existsb (fun q' => cell_eqb (Username (snd q')) (Username (snd q))) df) eqn:E;
    [exact IH|].
  cbn [map]. constructor; [|exact IH].
  intros Hin. apply in_map_iff in Hin. destruct Hin as [p [Hp Hin]].
  apply drop_duplicates_last_incl in Hin.
  assert (Ht : existsb (fun q' => cell_eqb (Username (snd q')) (Username (snd q))) df = true).
  { apply existsb_exists. exists p. split; [exact Hin|]. now apply cell_eqb_eq. }
  congruence.
Qed.

Lemma drop_duplicates_last_keeps (df : frame user) :
  forall p, In p df ->
            In (Username (snd p)) (map (fun q => Username (snd q)) (drop_duplicates_last df)).
Proof.
  induction df as [|q df IH]; [intros p []|].
  intros p. cbn [drop_duplicates_last].
  destruct (existsb (fun q' => cell_eqb (Username (snd q')) (Username (snd q))) df) eqn:E.
  - intros [<- | H]; [|now apply IH].
    apply existsb_exists in E. destruct E as [q' [Hq' E]].
    apply cell_eqb_eq in E. rewrite <- E. now apply IH.
  - intros [<- | H]; [now left | right; now apply IH].
Qed.

Lemma in_labelled (A : Type) (rows : list A) (p : nat * A) :
  forall s, In p (labelled s rows) -> In (snd p) rows.
Proof.
  induction rows as [|r rows IH]; intros s; [intros []|].
  rewrite labelled_cons. intros [<- | H]; [now left | right; now apply (IH (S s))].
Qed.

Lemma labelled_in (A : Type) (rows : list A) (r : A) :
  In r rows -> forall s, exists l, In (l, r) (labelled s rows).
Proof.
  induction rows as [|r' rows IH]; [intros []|].
  intros [-> | H] s; rewrite labelled_cons.
  - exists s. now left.
  - destruct (IH H (S s)) as [l Hl]. exists l. now right.
Qed.

(** Every row that [safe_read_users] returns is a row of the file with a
    username. *)
Lemma safe_read_users_rows (f : list user_line) (r : user) :
  In r (values (safe_read_users (Some f))) ->
  In r (map read_user f) /\ isna (Username r) = false.
Proof.
  unfold values, safe_read_users. intros H.
  apply in_map_iff in H. destruct H as [p [<- Hp]].
  apply drop_duplicates_last_incl in Hp.
  unfold dropna_username in Hp. apply filter_In in Hp. destruct Hp as [Hp Hna].
  split.
  - rewrite range_index_labelled in Hp. now apply in_labelled in Hp.
  - now apply negb_true_iff in Hna.
Qed.

End ReadUsers.

Section LoggingIn.
Import Pandas App AppLogin.

Lemma eq_str_read_cell_true (s u : string) :
  eq_str (read_cell s) u = true -> s = u /\ is_na_text u = false.
Proof.
  unfold read_cell. destruct (is_na_text s) eqn:E; cbn [eq_str]; [discriminate|].
  intros H. apply String.eqb_eq in H. subst. now split.
Qed.

(** A username that reads as missing matches no row of any file. *)
Lemma missing_name_is_not_found (file : option (list user_line)) (u : string) :
  is_na_text u = true -> find_user (safe_read_users file) u = None.
Proof.
  intros Hu. unfold find_user.
  destruct (find (fun r => eq_str (Username r) u) (values (safe_read_users file)))
    as [r|] eqn:E; [|reflexivity].
  exfalso. apply find_some in E. destruct E as [Hin Heq].
  destruct file as [f|]; [|destruct Hin].
  apply safe_read_users_rows in Hin. destruct Hin as [Hin _].
  apply in_map_iff in Hin. destruct Hin as [l [<- _]].
  unfold read_user in Heq. cbn [Username] in Heq.
  apply eq_str_read_cell_true in Heq. destruct Heq as [_ Hn]. congruence.
Qed.

End LoggingIn.

(** X10. A username that [pd.read_csv] reads as missing (null, NA, nan,
    None, ...) never logs in through users.csv, whatever the file holds and
    whatever the password: [api_login] refuses it, and [login] gives it no
    session unless the cloud store has a document for it. *)
Theorem missing_username_never_logs_in :
  forall (hash_password : string -> string) (file : option (list App.user_line))
         (username password : string),
    Pandas.is_na_text (Py.strip username) = true ->
    AppLogin.api_login hash_password file username password = AppLogin.Refused /\
    AppLogin.login hash_password file None username password = AppLogin.NoSession.
Proof.
  intros hash_password file username password Hna.
  assert (Hadmin : String.eqb (Py.strip username) AppLogin.ADMIN_USER = false).
  { apply String.eqb_neq. intros E. rewrite E in Hna. discriminate. }
  unfold AppLogin.api_login, AppLogin.login, AppLogin.local_check.
  rewrite Hadmin, (missing_name_is_not_found file _ Hna). now split.
Qed.

Definition null_user_file (stored_hash : string) : option (list App.user_line) :=
  Some [App.mkUserLine "null" "First Owner" stored_hash "03-11-2026"].

Lemma missing_username_never_logs_in_witness :
  Pandas.is_na_text (Py.strip " null ") = true /\
  AppLogin.api_login (fun p => p) (null_user_file "secret") " null " "secret"
    = AppLogin.Refused.
Proof.
  split; [reflexivity|].
  apply (missing_username_never_logs_in (fun p => p) (null_user_file "secret")
           " null " "secret").
  reflexivity.
Defined.

Section AddThenLogIn.
Import Pandas App AppLogin PandasText.

Lemma keeps_text_not_na (s : string) : keeps_text s = true -> is_na_text s = false.
Proof.
  unfold keeps_text. intros H.
  apply andb_true_iff in H. destruct H as [H _].
  apply andb_true_iff in H. destruct H as [H _].
  now apply negb_true_iff in H.
Qed.

Lemma not_na_not_empty (s : string) : is_na_text s = false -> s <> "".
Proof. intros H ->. discriminate. Qed.

Lemma NoDup_map_eq (A B : Type) (g : A -> B) (l : list A) (a b : A) :
  NoDup (map g l) -> In a l -> In b l -> g a = g b -> a = b.
Proof.
  induction l as [|x l IH]; [intros _ []|].
  cbn [map]. intros Hnd Ha Hb E. inversion Hnd as [|? ? Hx Hl]; subst.
  destruct Ha as [-> | Ha], Hb as [-> | Hb].
  - reflexivity.
  - exfalso. apply Hx. rewrite E. now apply in_map.
  - exfalso. apply Hx. rewrite <- E. now apply in_map.
  - now apply IH.
Qed.

(** On a clean file the row found for a listed username is the row of its
    line. *)
Lemma find_user_clean (g : list user_line) (l : user_line) :
  clean g -> In l g ->
  find_user (safe_read_users (Some g)) (ul_username l) = Some (read_user l).
Proof.
  intros Hc Hl. unfold find_user.
  rewrite (safe_read_users_clean g Hc), values_range_index.
  destruct Hc as [Hnd Hna].
  destruct (find (fun r => eq_str (Username r) (ul_username l)) (map read_user g))
    as [r|] eqn:E.
  - apply find_some in E. destruct E as [Hin Heq].
    apply in_map_iff in Hin. destruct Hin as [l' [<- Hl']].
    unfold read_user in Heq. cbn [Username] in Heq.
    apply eq_str_read_cell_true in Heq. destruct Heq as [Heq _].
    now rewrite (NoDup_map_eq _ _ ul_username g l' l Hnd Hl' Hl Heq).
  - exfalso.
    pose proof (find_none _ _ E (read_user l) (in_map read_user g l Hl)) as Hn.
    cbv beta in Hn. rewrite (read_username l (Hna l Hl)) in Hn. cbn [eq_str] in Hn.
    now rewrite String.eqb_refl in Hn.
Qed.

Lemma usernames_rewritten (f : list user_line) :
  (forall l, In l f -> is_na_text (ul_username l) = false) ->
  usernames (map rewritten_user f) = usernames f.
Proof.
  intros H. unfold usernames. rewrite map_map. apply map_ext_in. intros l Hl.
  unfold rewritten_user, write_user. cbn [ul_username].
  now rewrite (read_username l (H l Hl)).
Qed.

Lemma clean_after_add (f : list user_line) (new : user_line) :
  clean f -> ~ In (ul_username new) (usernames f) -> is_na_text (ul_username new) = false ->
  clean (map rewritten_user f ++ [new]).
Proof.
  intros [Hnd Hna] Hfresh Hnew. split.
  - unfold usernames. rewrite map_app. fold (usernames (map rewritten_user f)).
    rewrite (usernames_rewritten f Hna). cbn [map].
    apply NoDup_app.
    + exact Hnd.
    + constructor; [intros []|constructor].
    + intros x Hx [<- | []]. now apply Hfresh.
  - intros l Hin. apply in_app_or in Hin. destruct Hin as [Hin | [<- | []]]; [|exact Hnew].
    apply in_map_iff in Hin. destruct Hin as [l' [<- Hl']].
    unfold rewritten_user, write_user. cbn [ul_username].
    rewrite (read_username l' (Hna l' Hl')). cbn [write_cell]. now apply Hna.
Qed.

End AddThenLogIn.

(** X11. A user added through /add-user can log in: on a users.csv with
    distinct usernames none of which reads as missing, after [add_user]
    with a fresh username and a password whose texts pandas keeps,
    [api_login] with the same username and password answers employee, and
    answers refused for any password with another hash. The username is
    not that of the built-in admin. *)
Theorem added_user_can_log_in :
  forall (hash_password : string -> string) (uf cr : bool) (today : Clock.datetime)
         (f : list App.user_line) (form : App.add_user_form),
    let uname := Py.strip (App.form_username form) in
    let pwd := Py.strip (App.form_password form) in
    let file' := snd (App.add_user hash_password uf cr today (Some f) form) in
    clean f ->
    ~ In uname (usernames f) ->
    PandasText.keeps_text uname = true ->
    pwd <> "" ->
    PandasText.keeps_text (hash_password pwd) = true ->
    uname <> AppLogin.ADMIN_USER ->
    AppLogin.api_login hash_password file' (App.form_username form) (App.form_password form)
      = AppLogin.AsEmployee /\
    forall p', hash_password (Py.strip p') <> hash_password pwd ->
               AppLogin.api_login hash_password file' (App.form_username form) p'
               = AppLogin.Refused.
Proof.
  intros hash_password uf cr today f form uname pwd file' Hc Hfresh Hu Hp Hh Hadmin.
  assert (Hu' : Pandas.is_na_text uname = false) by now apply keeps_text_not_na.
  assert (Hh' : Pandas.is_na_text (hash_password pwd) = false) by now apply keeps_text_not_na.
  set (new := App.mkUserLine uname (Py.strip (App.form_fullname form)) (hash_password pwd)
                             (Clock.strftime_dmY today)).
  assert (Hfile : file' = Some (map rewritten_user f ++ [new])).
  { unfold file'.
    apply (proj2 (add_user_on_clean_file hash_password uf cr today f form Hc));
      [exact Hfresh | now apply not_na_not_empty | exact Hp]. }
  assert (Hc' : clean (map rewritten_user f ++ [new])) by now apply clean_after_add.
  assert (Hfind : AppLogin.find_user (App.safe_read_users file') uname
                  = Some (App.read_user new)).
  { rewrite Hfile.
    apply (find_user_clean (map rewritten_user f ++ [new]) new Hc').
    apply in_or_app. right. now left. }
  assert (Hstored : AppLogin.str (App.Password (App.read_user new)) = hash_password pwd).
  { unfold App.read_user, Pandas.read_cell. cbn [App.Password App.ul_password new].
    now rewrite Hh'. }
  assert (Hadm : String.eqb uname AppLogin.ADMIN_USER = false) by now apply String.eqb_neq.
  unfold AppLogin.api_login, AppLogin.local_check. fold uname. fold pwd.
  rewrite Hadm, Hfind, Hstored. cbn [andb].
  assert (Hne : App.is_empty (hash_password pwd) = false).
  { apply String.eqb_neq. now apply not_na_not_empty. }
  rewrite Hne. cbn [negb andb]. split.
  - now rewrite String.eqb_refl.
  - intros p' Hp'. apply String.eqb_neq in Hp'. now rewrite Hp'.
Qed.

(** A stand-in for SHA-256 in examples: the password behind a tag. *)
Definition tagged (p : string) : string := ("h:" ++ p)%string.

Definition new_user_form : App.add_user_form := App.mkForm " ravi " "Ravi K" "secret".

Lemma no_users_is_clean : clean [].
Proof. split; [constructor | intros l []]. Qed.

Lemma added_user_can_log_in_witness :
  AppLogin.api_login tagged
    (snd (App.add_user tagged false false noon (Some []) new_user_form))
    (App.form_username new_user_form) (App.form_password new_user_form)
  = AppLogin.AsEmployee.
Proof.
  apply (added_user_can_log_in tagged false false noon [] new_user_form).
  - exact no_users_is_clean.
  - intros [].
  - reflexivity.
  - discriminate.
  - reflexivity.
  - discriminate.
Defined.

(** ** app.py: assigning a task *)

Module AppTasks.
Import Pandas App.

(** A form field that may be absent: [request.form.get(name)]. *)
Definition cell_of (field : option string) : cell :=
  match field with
  | Some s => Str s
  | None => NaN
  end.

Inductive flash : Type :=
| AssignedLocal       (* Task assigned (local) *)
| LocalSaveFailed.    (* Task assigned but local save failed *)

(** The local-file branch of the POST of [assign_task] ([USE_FIREBASE]
    false). [status] is the field of the form, Pending when absent;
    [now_d] and [now_t] are the clock readings behind date and time, and
    [created] is the text of [datetime.now().isoformat()]. [file] is [None]
    when [pd.read_csv] raises. *)
Definition assign_task_local (file : option (list task_line))
    (user task status : option string) (now_d now_t : Clock.datetime) (created : string)
  : flash * option (list task_line) :=
  let status := match status with Some s => s | None => "Pending" end in
  match file with
  | None => (LocalSaveFailed, file)
  | Some f =>
      let df := read_tasks f in
      let df' := loc_set df (length df)
                   (mkTask (cell_of user) (cell_of task) (Str status)
                           (Str (Clock.strftime_dmY now_d)) (Str (Clock.strftime_IMp now_t))
                           (Str created)) in
      (AssignedLocal, Some (tasks_to_csv df'))
  end.

End AppTasks.

Section AssignThenUpdate.
Import Pandas App AppTasks PandasText.

(** The third case of an update: the last line of the user is rewritten. *)
Lemma update_last_owned (user new_status : string) (pre post : list task_line)
    (l : task_line) :
  owned_by user l = true ->
  (forall l', In l' post -> owned_by user l' = false) ->
  exists f',
    update_task_local (Some (pre ++ l :: post)) user new_status = (true, Some f') /\
    map read_task f' = map read_task pre ++ with_status new_status l :: map read_task post.
Proof.
  intros Hl Hpost.
  unfold update_task_local, read_tasks.
  rewrite range_index_labelled, map_app. cbn [map].
  rewrite index_where_last.
  - cbv iota beta. cbn [Nat.add].
    eexists. split; [reflexivity|].
    unfold tasks_to_csv.
    pose proof (at_set_position (set_status new_status) (read_task l)
                  (map read_task post) (map read_task pre) 0) as Hat.
    cbn [Nat.add] in Hat. rewrite Hat.
    rewrite map_app. cbn [map]. rewrite !map_app. cbn [map]. rewrite !map_map.
    rewrite read_write_set_status. f_equal; [|f_equal].
    + apply map_ext. intros a. apply read_write_read_task.
    + apply map_ext. intros a. apply read_write_read_task.
  - exact Hl.
  - intros r Hr. apply in_map_iff in Hr. destruct Hr as [l' [<- Hl']].
    apply (Hpost l' Hl').
Qed.

Definition rewritten_task (l : task_line) : task_line := write_task (read_task l).

Lemma assign_task_appends (f : list task_line) (user task status : option string)
    (now_d now_t : Clock.datetime) (created : string) :
  snd (assign_task_local (Some f) user task status now_d now_t created)
  = Some (map rewritten_task f
            ++ [mkTaskLine (write_cell (cell_of user)) (write_cell (cell_of task))
                           (match status with Some s => s | None => "Pending" end)
                           (Clock.strftime_dmY now_d) (Clock.strftime_IMp now_t) created]).
Proof.
  unfold assign_task_local, tasks_to_csv, read_tasks. cbn [snd].
  rewrite loc_set_range_index, map_app, map_map. reflexivity.
Qed.

End AssignThenUpdate.

(** ** app.py: the camera handle *)

Module AppCamera.

(** The global [camera] ([true] when it holds a [cv2.VideoCapture]), and
    the captures the process has opened, released, and dropped after a
    [release()] that raised. *)
Record world : Type := mkWorld {
  camera : bool;
  opened : nat;
  released : nat;
  dropped : nat
}.

Definition boot : world := mkWorld false 0 0 0.

Definition get_camera (w : world) : world :=
  if camera w then w
  else mkWorld true (S (opened w)) (released w) (dropped w).

(** [release_camera()]; [raises] tells whether [camera.release()] raises,
    which the function swallows. *)
Definition release_camera (raises : bool) (w : world) : world :=
  if camera w
  then if raises
       then mkWorld false (opened w) (released w) (S (dropped w))
       else mkWorld false (opened w) (S (released w)) (dropped w)
  else mkWorld false (opened w) (released w) (dropped w).

(** [gen_frames()], run to its end over the reads the camera answers:
    the number of frames it yields. It stops at the first failed read and
    does not release. *)
Fixpoint frames_until_failure (reads : list bool) : nat :=
  match reads with
  | true :: rest => S (frames_until_failure rest)
  | _ => 0
  end.

Definition gen_frames (reads : list bool) (w : world) : nat * world :=
  (frames_until_failure reads, get_camera w).

Inductive request : Type :=
| StartCamera                       (* POST /start_camera *)
| StopCamera (raises : bool)        (* POST /stop_camera *)
| VideoFeed (reads : list bool)     (* GET /video_feed, streamed to its end *)
| Logout (raises : bool).           (* GET /logout *)

(** A request of a session that is logged in or not: the three camera
    routes are behind [login_required], [logout] is not. *)
Definition serve (logged_in : bool) (r : request) (w : world) : world :=
  match r with
  | Logout raises => release_camera raises w
  | StartCamera => if logged_in then get_camera w else w
  | StopCamera raises => if logged_in then release_camera raises w else w
  | VideoFeed reads => if logged_in then snd (gen_frames reads w) else w
  end.

Definition serve_all (rs : list (bool * request)) (w : world) : world :=
  fold_left (fun w r => serve (fst r) (snd r) w) rs w.

Definition held (w : world) : nat := if camera w then 1 else 0.

End AppCamera.

Section Camera.
Import AppCamera.

Definition accounted (w : world) : Prop :=
  opened w = released w + dropped w + held w.

Lemma get_camera_accounted (w : world) : accounted w -> accounted (get_camera w).
Proof.
  unfold accounted, get_camera, held. destruct (camera w) eqn:E; cbn; [now rewrite E|].
  intros H. lia.
Qed.

Lemma release_camera_accounted (raises : bool) (w : world) :
  accounted w -> accounted (release_camera raises w).
Proof.
  unfold accounted, release_camera, held.
  destruct (camera w), raises; cbn; intros H; lia.
Qed.

Lemma serve_accounted (logged_in : bool) (r : request) (w : world) :
  accounted w -> accounted (serve logged_in r w).
Proof.
  intros H. destruct r as [|raises|reads|raises]; cbn [serve gen_frames snd].
  - destruct logged_in; [now apply get_camera_accounted | assumption].
  - destruct logged_in; [now apply release_camera_accounted | assumption].
  - destruct logged_in; [now apply get_camera_accounted | assumption].
  - now apply release_camera_accounted.
Qed.

Lemma serve_dropped (logged_in : bool) (r : request) (w : world) :
  dropped (serve logged_in r w) = dropped w \/
  (dropped (serve logged_in r w) = S (dropped w) /\
   (r = StopCamera true \/ r = Logout true)).
Proof.
  destruct r as [|raises|reads|raises]; cbn [serve].
  - left. destruct logged_in; [|reflexivity]. unfold get_camera. now destruct (camera w).
  - destruct logged_in; [|now left]. unfold release_camera.
    destruct (camera w), raises; cbn; auto.
  - left. destruct logged_in; [|reflexivity]. cbn. unfold get_camera. now destruct (camera w).
  - unfold release_camera. destruct (camera w), raises; cbn; auto.
Qed.

End Camera.

(** X13. app.py keeps at most one capture open: over any sequence of
    /start_camera, /stop_camera, /video_feed and /logout requests, logged
    in or not, every capture opened is the one held in [camera], or was
    released, or was dropped by a [release()] that raised; so, when no
    release raises, the captures opened exceed those released by one when
    [camera] is held and by none otherwise. *)
Theorem at_most_one_capture_open :
  forall rs : list (bool * AppCamera.request),
    let w := AppCamera.serve_all rs AppCamera.boot in
    AppCamera.opened w = AppCamera.released w + AppCamera.dropped w + AppCamera.held w /\
    ((forall li r, In (li, r) rs ->
                   r <> AppCamera.StopCamera true /\ r <> AppCamera.Logout true) ->
     AppCamera.opened w = AppCamera.released w + AppCamera.held w).
Proof.
  intros rs.
  assert (G : forall w0,
             accounted w0 ->
             accounted (AppCamera.serve_all rs w0) /\
             ((forall li r, In (li, r) rs ->
                            r <> AppCamera.StopCamera true /\ r <> AppCamera.Logout true) ->
              AppCamera.dropped (AppCamera.serve_all rs w0) = AppCamera.dropped w0)).
  { unfold AppCamera.serve_all.
    induction rs as [|[li r] rs IH]; intros w0 H0; cbn [fold_left fst snd].
    - now split.
    - destruct (IH (AppCamera.serve li r w0) (serve_accounted li r w0 H0)) as [Ha Hd].
      split; [exact Ha|]. intros Hno.
      rewrite Hd by (intros li' r' Hin; apply (Hno li' r'); now right).
      destruct (serve_dropped li r w0) as [E | [_ [E | E]]]; [exact E| |];
        destruct (Hno li r (or_introl eq_refl)); contradiction. }
  intros w. destruct (G AppCamera.boot) as [Ha Hd]; [reflexivity|].
  split; [exact Ha|]. intros Hno. unfold accounted in Ha. fold w in Ha.
  unfold w at 3 in Ha. rewrite (Hd Hno) in Ha. cbn in Ha. fold w in Ha. lia.
Qed.

(** After /video_feed by a logged-in session [camera] is held however the
    reads went, and a second start opens no second capture. *)
Lemma video_feed_keeps_the_camera (reads : list bool) (w : AppCamera.world) :
  let w' := AppCamera.serve true (AppCamera.VideoFeed reads) w in
  AppCamera.camera w' = true /\
  AppCamera.released w' = AppCamera.released w /\
  AppCamera.serve true AppCamera.StartCamera w' = w'.
Proof.
  cbn. unfold AppCamera.get_camera.
  destruct (AppCamera.camera w) eqn:E; cbn; rewrite ?E; auto.
Qed.

(** ** app.py: the order of a report *)

Module ReportOrder.

(** [a] is a day no earlier than [b]; a missing day is earlier than every
    day. *)
Definition not_before (a b : option Dates.date) : bool :=
  match a, b with
  | Some da, Some db => Dates.date_leb db da
  | Some _, None => true
  | None, Some _ => false
  | None, None => true
  end.

(** The days of the rows, as the Date column parses. *)
Definition days (rows : list Attendance.row) : list (option Dates.date) :=
  map (fun r => Dates.to_datetime_dayfirst (Attendance.Date r)) rows.

End ReportOrder.

Section Ordering.
Import Pandas Attendance App ReportOrder.

Lemma date_compare_refl (a : Dates.date) : Dates.date_compare a a = Eq.
Proof.
  destruct a as [[y m] d]. unfold Dates.date_compare. now rewrite !Nat.compare_refl.
Qed.

Lemma date_leb_spec (a b : Dates.date) :
  Dates.date_leb a b = true <->
  let '(ya, ma, da) := a in
  let '(yb, mb, db) := b in
  ya < yb \/ (ya = yb /\ (ma < mb \/ (ma = mb /\ da <= db))).
Proof.
  destruct a as [[ya ma] da], b as [[yb mb] db].
  unfold Dates.date_leb, Dates.date_compare.
  destruct (Nat.compare_spec ya yb), (Nat.compare_spec ma mb), (Nat.compare_spec da db);
    split; intros Hyp; try reflexivity; try discriminate; lia.
Qed.

Lemma date_leb_trans (a b c : Dates.date) :
  Dates.date_leb a b = true -> Dates.date_leb b c = true -> Dates.date_leb a c = true.
Proof.
  rewrite !date_leb_spec. destruct a as [[ya ma] da], b as [[yb mb] db], c as [[yc mc] dc].
  lia.
Qed.

Lemma date_leb_total (a b : Dates.date) :
  Dates.date_leb a b = true \/ Dates.date_leb b a = true.
Proof.
  rewrite !date_leb_spec. destruct a as [[ya ma] da], b as [[yb mb] db]. lia.
Qed.

Lemma not_before_trans (a b c : option Dates.date) :
  not_before a b = true -> not_before b c = true -> not_before a c = true.
Proof.
  destruct a as [a|], b as [b|], c as [c|]; cbn; try congruence.
  intros H1 H2. exact (date_leb_trans c b a H2 H1).
Qed.

(** What [ahead] says about the days of two rows. *)
Lemma ahead_days (x y : dated) :
  (ahead y x = true -> not_before (snd y) (snd x) = true) /\
  (ahead y x = false -> not_before (snd x) (snd y) = true).
Proof.
  unfold ahead, not_before.
  destruct (snd y) as [dy|], (snd x) as [dx|]; try (split; congruence).
  unfold Dates.date_leb.
  destruct (Dates.date_compare dy dx) eqn:E.
  - assert (E' : Dates.date_leb dy dx = true) by (unfold Dates.date_leb; now rewrite E).
    assert (E2 : Dates.date_leb dx dy = true).
    { apply date_leb_spec. apply date_leb_spec in E'.
      destruct dx as [[yx mx] ddx], dy as [[yy my] ddy].
      unfold Dates.date_compare in E.
      destruct (Nat.compare_spec yy yx); try discriminate.
      destruct (Nat.compare_spec my mx); try discriminate.
      apply Nat.compare_eq in E. lia. }
    unfold Dates.date_leb in E', E2.
    split; intros _.
    + destruct (Dates.date_compare dx dy); [reflexivity|reflexivity|discriminate].
    + reflexivity.
  - split; [discriminate|]. intros _. reflexivity.
  - split; [|discriminate]. intros _.
    destruct (date_leb_total dx dy) as [H|H]; unfold Dates.date_leb in H.
    + exact H.
    + rewrite E in H. discriminate.
Qed.

Definition by_day (l : list dated) : Prop :=
  StronglySorted (fun a b => not_before (snd a) (snd b) = true) l.

Lemma insert_by_day (x : dated) (l : list dated) : by_day l -> by_day (insert x l).
Proof.
  unfold by_day. induction l as [|y l IH]; intros H; cbn [insert].
  - constructor; constructor.
  - inversion H as [|? ? Hl Hy]; subst.
    destruct (ahead y x) eqn:E.
    + constructor; [now apply IH|].
      apply Forall_forall. intros z Hz. apply insert_In in Hz.
      destruct Hz as [-> | Hz].
      * now apply (proj1 (ahead_days x y)).
      * rewrite Forall_forall in Hy. now apply Hy.
    + constructor; [exact H|].
      pose proof (proj2 (ahead_days x y) E) as Hxy.
      constructor; [exact Hxy|].
      apply Forall_forall. intros z Hz. rewrite Forall_forall in Hy.
      exact (not_before_trans _ _ _ Hxy (Hy z Hz)).
Qed.

Lemma sort_values_by_day (l : list dated) : by_day (sort_values l).
Proof.
  unfold sort_values. induction l as [|x l IH]; cbn [fold_right].
  - constructor.
  - now apply insert_by_day.
Qed.

Lemma filter_keeps_snd (keep : dated -> bool) (l : list dated) :
  Forall (fun p => snd p = Dates.to_datetime_dayfirst (Date (fst p))) l ->
  Forall (fun p => snd p = Dates.to_datetime_dayfirst (Date (fst p))) (filter keep l).
Proof.
  intros H. apply Forall_forall. intros p Hp. apply filter_In in Hp.
  rewrite Forall_forall in H. now apply H.
Qed.

(** A sorted frame whose [DateObj] is the parse of [Date] lists days in
    descending order once [DateObj] is dropped. *)
Lemma sorted_days (l : list dated) :
  Forall (fun p => snd p = Dates.to_datetime_dayfirst (Date (fst p))) l ->
  StronglySorted (fun a b => not_before a b = true) (days (map fst (sort_values l))).
Proof.
  intros H.
  assert (Hs : Forall (fun p => snd p = Dates.to_datetime_dayfirst (Date (fst p)))
                      (sort_values l)).
  { apply Forall_forall. intros p Hp. apply (proj1 (sort_values_In _ _)) in Hp.
    rewrite Forall_forall in H. now apply H. }
  pose proof (sort_values_by_day l) as Hb. unfold by_day in Hb.
  unfold days. rewrite map_map.
  induction Hb as [|p rest Hrest IH Hp]; cbn [map]; [constructor|].
  inversion Hs as [|? ? Ep Es]; subst.
  constructor; [now apply IH|].
  apply Forall_forall. intros d Hd. apply in_map_iff in Hd. destruct Hd as [q [<- Hq]].
  rewrite Forall_forall in Hp, Es.
  rewrite <- Ep, <- (Es q Hq). now apply Hp.
Qed.

End Ordering.

(** X14. Every report [load_attendance] returns is ordered by day, most
    recent day first, rows without a date last; this holds with or without
    the mirror and for every filter, on stores whose dates are missing or
    days in the layout DD-MM-YYYY, as this program writes them. (Within a
    day the order is that of the Time text.) *)
Theorem report_is_ordered_by_day :
  forall (file firebase : option (list Attendance.line)) (flt : option App.filters)
         (rows : list Attendance.row),
    (forall l, In l (lines_of file ++ lines_of firebase) ->
               Calendar.written_date (Attendance.lDate l)) ->
    App.load_attendance file firebase flt = App.Returned rows ->
    StronglySorted (fun a b => ReportOrder.not_before a b = true) (ReportOrder.days rows).
Proof.
  intros file firebase flt rows _.
  unfold App.load_attendance.
  set (all_records := match firebase with
                      | Some docs => fold_left App.merge_doc docs _
                      | None => _
                      end).
  destruct all_records as [|r0 rs] eqn:E.
  - intros H. injection H as <-. constructor.
  - set (df := map (fun r => (r, Dates.to_datetime_dayfirst (Attendance.Date r))) (r0 :: rs)).
    assert (Hdf : Forall (fun p => snd p = Dates.to_datetime_dayfirst (Attendance.Date (fst p)))
                         df).
    { apply Forall_forall. intros p Hp. apply in_map_iff in Hp.
      destruct Hp as [r [<- _]]. reflexivity. }
    assert (Hdates : forall l,
               Forall (fun p => snd p = Dates.to_datetime_dayfirst (Attendance.Date (fst p))) l ->
               forall bf bt,
               Forall (fun p => snd p = Dates.to_datetime_dayfirst (Attendance.Date (fst p)))
                 (if App.is_empty bt
                  then if App.is_empty bf then l else App.keep_from bf l
                  else App.keep_to bt (if App.is_empty bf then l else App.keep_from bf l))).
    { intros l Hl bf bt.
      assert (Hf : Forall (fun p => snd p = Dates.to_datetime_dayfirst (Attendance.Date (fst p)))
                          (if App.is_empty bf then l else App.keep_from bf l)).
      { destruct (App.is_empty bf); [exact Hl|].
        unfold App.keep_from. destruct (Dates.to_datetime bf); [|exact Hl].
        now apply filter_keeps_snd. }
      destruct (App.is_empty bt); [exact Hf|].
      unfold App.keep_to. destruct (Dates.to_datetime bt); [|exact Hf].
      now apply filter_keeps_snd. }
    destruct flt as [f|].
    + destruct (App.is_empty (Py.strip (App.f_name f))).
      * intros H. injection H as <-. exact (sorted_days _ (Hdates df Hdf _ _)).
      * destruct (forallb (fun r => Pandas.isna (Attendance.Name r)) (r0 :: rs));
          [discriminate|].
        destruct (App.is_plain_text (Py.strip (App.f_name f))); [|discriminate].
        intros H. injection H as <-.
        exact (sorted_days _ (Hdates _ (filter_keeps_snd _ df Hdf) _ _)).
    + intros H. injection H as <-. exact (sorted_days df Hdf).
Qed.

Lemma report_is_ordered_by_day_witness :
  StronglySorted (fun a b => ReportOrder.not_before a b = true)
    (ReportOrder.days
       [ Attendance.mkRow (Pandas.Str "Aman") (Pandas.Str "04-11-2026") (Pandas.Str "10:00 AM");
         Attendance.mkRow (Pandas.Str "Aman") (Pandas.Str "04-11-2026") (Pandas.Str "09:00 PM");
         Attendance.mkRow (Pandas.Str "Aman") (Pandas.Str "03-11-2026") (Pandas.Str "11:30 AM") ]).
Proof.
  apply (report_is_ordered_by_day (Some evening_file) None (Some november_aman)).
  - intros l Hin. right.
    repeat (destruct Hin as [<- | Hin]; [eexists; reflexivity|]). destruct Hin.
  - reflexivity.
Defined.

(** ** web_dashboard.py *)

Module WebDashboard.
Import Pandas Attendance App.

(** [df["Name"].fillna("")] on one row. *)
Definition fillna_name (r : row) : row :=
  mkRow (match Name r with NaN => Str "" | Str s => Str s end) (Date r) (Time r).

(** [ensure_attendance_file()] then [pd.read_csv]: an absent file is
    created with its header only. *)
Definition read_attendance (file : option (list line)) : list row :=
  match file with
  | Some f => values (read_csv f)
  | None => []
  end.

(** [load_attendance(filters)] of this file. *)
Definition load_attendance (file : option (list line)) (flt : option filters)
  : outcome (list row) :=
  let df := map (fun r => (r, Dates.to_datetime_dayfirst (Date r)))
                (map fillna_name (read_attendance file)) in
  let finish (l : list dated) := Returned (map fst (sort_values l)) in
  match flt with
  | None => finish df
  | Some f =>
      let name := Py.strip (f_name f) in
      let date_from := Py.strip (f_date_from f) in
      let date_to := Py.strip (f_date_to f) in
      let dates (l : list dated) :=
        let l1 := if is_empty date_from then l else keep_from date_from l in
        if is_empty date_to then l1 else keep_to date_to l1 in
      if is_empty name then finish (dates df)
      else if is_plain_text name
           then finish (dates (filter (fun p => str_contains name (Name (fst p))) df))
           else NotModelled
  end.

(** The table of an uploaded file as its reader returns it. *)
Record table : Type := mkTable {
  columns : list string;
  records : list (list cell)
}.

(** [request.files.get("file")]: the name of the upload and what
    [pd.read_excel] or [pd.read_csv] makes of it, [None] when the reader
    raises. Cells that the reader types as numbers or timestamps are
    outside this model. *)
Record upload : Type := mkUpload {
  filename : string;
  parsed : option table
}.

Fixpoint position (name : string) (cols : list string) : option nat :=
  match cols with
  | [] => None
  | c :: rest => if String.eqb c name then Some 0
                 else option_map S (position name rest)
  end.

(** The cell of a record under a column. *)
Definition under (t : table) (name : string) (r : list cell) : cell :=
  match position name (columns t) with
  | Some i => nth i r NaN
  | None => NaN
  end.

(** [new_df[["Name", "Date", "Time"]]] *)
Definition project (t : table) : list row :=
  map (fun r => mkRow (under t "Name" r) (under t "Date" r) (under t "Time" r)) (records t).

Definition has_columns (t : table) : bool :=
  forallb (fun c => existsb (String.eqb c) (columns t)) ["Name"; "Date"; "Time"].

Inductive flash : Type :=
| SelectFile            (* Please select a file *)
| MissingColumns        (* File must contain Name, Date, Time *)
| Uploaded (n : nat)    (* Uploaded n records *)
| UploadError.          (* Upload error: ... *)

(** [upload_attendance()] *)
Definition upload_attendance (file : option (list line)) (up : option upload)
  : flash * option (list line) :=
  match up with
  | None => (SelectFile, file)
  | Some u =>
      if is_empty (filename u) then (SelectFile, file)
      else
        match parsed u with
        | None => (UploadError, file)
        | Some new_df =>
            if negb (has_columns new_df) then (MissingColumns, file)
            else
              let old := read_attendance file in
              let merged := old ++ project new_df in
              (Uploaded (length (records new_df)), Some (map write_row merged))
        end
  end.

End WebDashboard.

Section TwoDashboards.
Import Pandas Attendance App.

Definition fill (p : dated) : dated := (WebDashboard.fillna_name (fst p), snd p).

Lemma ahead_fill (a b : dated) : ahead (fill a) (fill b) = ahead a b.
Proof. reflexivity. Qed.

Lemma insert_fill (x : dated) (l : list dated) :
  map fill (insert x l) = insert (fill x) (map fill l).
Proof.
  induction l as [|y l IH]; [reflexivity|].
  cbn [insert map]. rewrite ahead_fill.
  destruct (ahead y x); cbn [map]; [now rewrite IH | reflexivity].
Qed.

Lemma sort_values_fill (l : list dated) :
  map fill (sort_values l) = sort_values (map fill l).
Proof.
  unfold sort_values. induction l as [|x l IH]; [reflexivity|].
  cbn [fold_right map]. now rewrite insert_fill, IH.
Qed.

Lemma filter_fill (keep : dated -> bool) (l : list dated) :
  (forall p, keep (fill p) = keep p) ->
  map fill (filter keep l) = filter keep (map fill l).
Proof.
  intros H. induction l as [|x l IH]; [reflexivity|].
  cbn [filter map]. rewrite H. destruct (keep x); cbn [map]; now rewrite IH.
Qed.

Lemma keep_from_fill (bound : string) (l : list dated) :
  map fill (keep_from bound l) = keep_from bound (map fill l).
Proof.
  unfold keep_from. destruct (Dates.to_datetime bound); [|reflexivity].
  now apply filter_fill.
Qed.

Lemma keep_to_fill (bound : string) (l : list dated) :
  map fill (keep_to bound l) = keep_to bound (map fill l).
Proof.
  unfold keep_to. destruct (Dates.to_datetime bound); [|reflexivity].
  now apply filter_fill.
Qed.

Lemma contains_in_empty (pat : string) : pat <> "" -> Py.contains (Py.lower pat) (Py.lower "") = false.
Proof. destruct pat as [|c pat]; [congruence|]. reflexivity. Qed.

Lemma str_contains_fill (name : string) (r : row) :
  is_empty name = false ->
  str_contains name (Name (WebDashboard.fillna_name r)) = str_contains name (Name r).
Proof.
  intros H. apply String.eqb_neq in H.
  unfold WebDashboard.fillna_name. cbn [Name].
  destruct (Name r) as [|s]; [|reflexivity].
  cbn [str_contains]. now apply contains_in_empty.
Qed.

Lemma frame_fill (rows : list row) :
  map (fun r => (r, Dates.to_datetime_dayfirst (Date r))) (map WebDashboard.fillna_name rows)
  = map fill (map (fun r => (r, Dates.to_datetime_dayfirst (Date r))) rows).
Proof. rewrite !map_map. reflexivity. Qed.

Lemma fst_fill (l : list dated) : map fst (map fill l) = map WebDashboard.fillna_name (map fst l).
Proof. rewrite !map_map. reflexivity. Qed.

End TwoDashboards.

(** The date filters of a report, applied to a frame. *)
Definition dates_of (bf bt : string) (l : list App.dated) : list App.dated :=
  if App.is_empty bt
  then if App.is_empty bf then l else App.keep_from bf l
  else App.keep_to bt (if App.is_empty bf then l else App.keep_from bf l).

Lemma dates_of_fill (bf bt : string) (l : list App.dated) :
  map fill (dates_of bf bt l) = dates_of bf bt (map fill l).
Proof.
  unfold dates_of.
  destruct (App.is_empty bt), (App.is_empty bf);
    rewrite ?keep_to_fill, ?keep_from_fill; reflexivity.
Qed.

Lemma dates_of_nil (bf bt : string) : dates_of bf bt [] = [].
Proof.
  unfold dates_of, App.keep_to, App.keep_from.
  destruct (App.is_empty bt), (App.is_empty bf);
    repeat match goal with
           | |- context [Dates.to_datetime ?b] => destruct (Dates.to_datetime b)
           end; reflexivity.
Qed.

(** X15. The two dashboards agree: whenever [load_attendance] of app.py,
    with the mirror off, returns a report for a file and filters whose name
    is plain text, [load_attendance] of web_dashboard.py returns the same
    rows in the same order, a missing Name being shown as the empty text. *)
Theorem web_report_is_the_app_report :
  forall (f : list Attendance.line) (flt : option App.filters) (rows : list Attendance.row),
    (forall g, flt = Some g -> App.is_plain_text (Py.strip (App.f_name g)) = true) ->
    App.load_attendance (Some f) None flt = App.Returned rows ->
    WebDashboard.load_attendance (Some f) flt
    = App.Returned (map WebDashboard.fillna_name rows).
Proof.
  intros f flt rows Hplain.
  assert (Hrows : forall l,
             App.Returned l = App.Returned rows -> rows = l).
  { intros l H. now injection H. }
  unfold App.load_attendance, WebDashboard.load_attendance, WebDashboard.read_attendance.
  rewrite frame_fill.
  set (all := Pandas.values (Attendance.read_csv f)).
  set (df := map (fun r => (r, Dates.to_datetime_dayfirst (Attendance.Date r))) all).
  destruct flt as [g|].
  - rewrite (Hplain g eq_refl).
    set (bf := Py.strip (App.f_date_from g)). set (bt := Py.strip (App.f_date_to g)).
    set (name := Py.strip (App.f_name g)).
    set (K := fun p : App.dated => App.str_contains name (Attendance.Name (fst p))).
    fold (dates_of bf bt (map fill df)).
    fold (dates_of bf bt (filter K (map fill df))).
    fold (dates_of bf bt df).
    fold (dates_of bf bt (filter K df)).
    destruct all as [|r0 rs] eqn:E.
    + intros H. apply Hrows in H. subst rows. subst df. cbn [map filter].
      unfold dates_of, App.keep_to, App.keep_from.
      destruct (App.is_empty name), (App.is_empty bt), (App.is_empty bf),
               (Dates.to_datetime bt), (Dates.to_datetime bf); reflexivity.
    + destruct (App.is_empty name) eqn:En.
      * intros H. apply Hrows in H. subst rows.
        change (App.Returned (map fst (App.sort_values (dates_of bf bt (map fill df))))
                = App.Returned
                    (map WebDashboard.fillna_name
                       (map fst (App.sort_values (dates_of bf bt df))))).
        now rewrite <- fst_fill, sort_values_fill, dates_of_fill.
      * destruct (forallb (fun r => Pandas.isna (Attendance.Name r)) (r0 :: rs));
          [discriminate|].
        intros H. apply Hrows in H. subst rows.
        change (App.Returned
                  (map fst (App.sort_values (dates_of bf bt (filter K (map fill df)))))
                = App.Returned
                    (map WebDashboard.fillna_name
                       (map fst (App.sort_values (dates_of bf bt (filter K df)))))).
        rewrite <- fst_fill, sort_values_fill, dates_of_fill.
        rewrite (filter_fill K df); [reflexivity|].
        intros p. unfold K, fill. cbn [fst]. now apply str_contains_fill.
  - destruct all as [|r0 rs] eqn:E.
    + intros H. apply Hrows in H. subst rows. reflexivity.
    + intros H. apply Hrows in H. subst rows.
      now rewrite <- fst_fill, sort_values_fill.
Qed.

Lemma web_report_is_the_app_report_witness :
  WebDashboard.load_attendance (Some evening_file) (Some november_aman)
  = App.Returned
      (map WebDashboard.fillna_name
         [ Attendance.mkRow (Pandas.Str "Aman") (Pandas.Str "04-11-2026") (Pandas.Str "10:00 AM");
           Attendance.mkRow (Pandas.Str "Aman") (Pandas.Str "04-11-2026") (Pandas.Str "09:00 PM");
           Attendance.mkRow (Pandas.Str "Aman") (Pandas.Str "03-11-2026")
                            (Pandas.Str "11:30 AM") ]).
Proof.
  apply (web_report_is_the_app_report evening_file (Some november_aman)).
  - intros g E. injection E as <-. reflexivity.
  - reflexivity.
Defined.

(** ** app.py: the task history *)

Module AppHistory.
Import Pandas App.

(** One entry of [tasks_out]. *)
Record entry : Type := mkEntry {
  e_user : cell; e_task : cell; e_status : cell; e_date : cell; e_time : cell
}.

Definition entry_of (t : task) : entry :=
  mkEntry (t_user t) (t_task t) (t_status t) (t_date t) (t_time t).

Definition shown (role user : string) (t : task) : bool :=
  String.eqb role "admin" || eq_str (t_user t) user.

(** The local-file branch of [task_history] for a logged-in session.
    [sort_by_created] is [sort_values(by="created", ascending=False)],
    whose order among equal keys pandas leaves open. An absent or
    unreadable file gives no entry. *)
Definition task_history_local (sort_by_created : list task -> list task)
    (file : option (list task_line)) (role user : string) : list entry :=
  match file with
  | None => []
  | Some f => map entry_of (filter (shown role user) (sort_by_created (values (read_tasks f))))
  end.

End AppHistory.

Section History.
Import Pandas App AppHistory.

Lemma filter_permutation (A : Type) (keep : A -> bool) (l l' : list A) :
  Permutation l l' -> Permutation (filter keep l) (filter keep l').
Proof.
  induction 1 as [|x l l' _ IH|x y l|l l' l'' _ IH1 _ IH2]; cbn [filter].
  - constructor.
  - destruct (keep x); [now constructor | assumption].
  - destruct (keep x), (keep y); try apply Permutation_refl. apply perm_swap.
  - now transitivity (filter keep l').
Qed.

Lemma filter_all (A : Type) (keep : A -> bool) (l : list A) :
  (forall x, keep x = true) -> filter keep l = l.
Proof.
  intros H. induction l as [|x l IH]; [reflexivity|].
  cbn [filter]. now rewrite H, IH.
Qed.

End History.

(** ** app.py: the users file over many requests *)

Module AppUsers.
Import App.

(** The users file after a sequence of POSTs to /add-user, each with the
    mirror on or off, failing or not, and its own clock reading. *)
Record post : Type := mkPost {
  use_firebase : bool;
  cloud_raises : bool;
  today : Clock.datetime;
  form : add_user_form
}.

Definition add_users (hash_password : string -> string)
    (file : option (list user_line)) (posts : list post) : option (list user_line) :=
  fold_left
    (fun file p =>
       snd (add_user hash_password (use_firebase p) (cloud_raises p) (today p) file (form p)))
    posts file.

End AppUsers.

Section ManyUsers.
Import Pandas App AppUsers PandasText.

Lemma add_user_keeps_clean (hash_password : string -> string) (uf cr : bool)
    (today : Clock.datetime) (f : list user_line) (form : add_user_form) :
  clean f ->
  is_na_text (Py.strip (form_username form)) = false ->
  exists f', snd (add_user hash_password uf cr today (Some f) form) = Some f' /\ clean f'.
Proof.
  intros Hc Hu.
  destruct (add_user_on_clean_file hash_password uf cr today f form Hc) as [Hin Hfresh].
  destruct (in_dec string_dec (Py.strip (form_username form)) (usernames f)) as [H|H].
  - exists f. split; [exact (proj1 (Hin H)) | exact Hc].
  - destruct (is_empty (Py.strip (form_password form))) eqn:Ep.
    + exists f. split; [|exact Hc].
      unfold add_user. rewrite Ep, orb_true_r. reflexivity.
    + eexists. split.
      * apply Hfresh; [exact H | now apply not_na_not_empty | now apply String.eqb_neq].
      * now apply clean_after_add.
Qed.

Lemma add_users_keep_clean (hash_password : string -> string) (posts : list post) :
  Forall (fun p => keeps_text (Py.strip (form_username (form p))) = true) posts ->
  forall f, clean f ->
            exists f', add_users hash_password (Some f) posts = Some f' /\ clean f'.
Proof.
  unfold add_users. induction 1 as [|p posts Hp _ IH]; intros f Hc; cbn [fold_left].
  - now exists f.
  - destruct (add_user_keeps_clean hash_password (use_firebase p) (cloud_raises p) (today p)
                f (form p) Hc (keeps_text_not_na _ Hp)) as [f1 [E1 Hc1]].
    rewrite E1. now apply IH.
Qed.

End ManyUsers.

(** X18. Usernames stay unique over any run of /add-user: starting from
    an empty users.csv, after any sequence of requests whose usernames are
    texts that pandas keeps, the usernames in the file are pairwise
    distinct and none reads as missing, so that [safe_read_users] returns
    the whole file. *)
Theorem usernames_stay_unique :
  forall (hash_password : string -> string) (posts : list AppUsers.post),
    Forall (fun p => PandasText.keeps_text
                       (Py.strip (App.form_username (AppUsers.form p))) = true) posts ->
    exists f : list App.user_line,
      AppUsers.add_users hash_password (Some []) posts = Some f /\
      NoDup (usernames f) /\
      (forall l, In l f -> Pandas.is_na_text (App.ul_username l) = false) /\
      Pandas.values (App.safe_read_users (Some f)) = map App.read_user f.
Proof.
  intros hash_password posts H.
  destruct (add_users_keep_clean hash_password posts H [] no_users_is_clean) as [f [E Hc]].
  exists f. split; [exact E|]. split; [exact (proj1 Hc)|]. split; [exact (proj2 Hc)|].
  rewrite (safe_read_users_clean f Hc). apply values_range_index.
Qed.

Definition two_posts : list AppUsers.post :=
  [ AppUsers.mkPost false false noon (App.mkForm "ravi" "Ravi K" "secret");
    AppUsers.mkPost true true noon (App.mkForm " ravi " "Another" "other") ].

Lemma usernames_stay_unique_witness :
  exists f : list App.user_line,
    AppUsers.add_users tagged (Some []) two_posts = Some f /\
    NoDup (usernames f) /\
    (forall l, In l f -> Pandas.is_na_text (App.ul_username l) = false) /\
    Pandas.values (App.safe_read_users (Some f)) = map App.read_user f.
Proof.
  apply (usernames_stay_unique tagged two_posts).
  repeat constructor.
Defined.

(** The second request, for the same name with spaces around it, is
    turned away. *)
Example second_ravi_is_turned_away :
  AppUsers.add_users tagged (Some []) two_posts
  = Some [App.mkUserLine "ravi" "Ravi K" "h:secret" "04-11-2026"].
Proof. reflexivity. Qed.

(** ** app.py: updating twice *)

Section UpdateTwice.
Import Pandas App.

Lemma owned_by_read (user : string) (l : task_line) :
  owned_by user l = eq_str (t_user (read_task l)) user.
Proof. reflexivity. Qed.

(** The last line of a user, when there is one. *)
Lemma last_owned (user : string) (f : list task_line) :
  (exists l, In l f /\ owned_by user l = true) ->
  exists pre l post,
    f = pre ++ l :: post /\ owned_by user l = true /\
    forall l', In l' post -> owned_by user l' = false.
Proof.
  induction f as [|x f IH]; intros [l [Hin Hl]]; [destruct Hin|].
  destruct (existsb (owned_by user) f) eqn:E.
  - apply existsb_exists in E. destruct (IH E) as [pre [l0 [post [-> [H0 Hpost]]]]].
    exists (x :: pre), l0, post. now repeat split.
  - assert (Hnone : forall l', In l' f -> owned_by user l' = false).
    { intros l' Hl'. destruct (owned_by user l') eqn:E'; [|reflexivity].
      assert (existsb (owned_by user) f = true)
        by (apply existsb_exists; now exists l').
      congruence. }
    destruct Hin as [-> | Hin].
    + exists [], l, f. now repeat split.
    + rewrite (Hnone l Hin) in Hl. discriminate.
Qed.

Lemma updated_means_owned (user new_status : string) (f f1 : list task_line) :
  update_task_local (Some f) user new_status = (true, Some f1) ->
  exists l, In l f /\ owned_by user l = true.
Proof.
  intros H.
  destruct (existsb (owned_by user) f) eqn:E.
  - now apply existsb_exists in E.
  - exfalso.
    assert (Hnone : forall r, In r (map read_task f) -> eq_str (t_user r) user = false).
    { intros r Hr. apply in_map_iff in Hr. destruct Hr as [l [<- Hl]].
      rewrite <- owned_by_read.
      destruct (owned_by user l) eqn:E'; [|reflexivity].
      assert (existsb (owned_by user) f = true)
        by (apply existsb_exists; now exists l).
      congruence. }
    unfold update_task_local, read_tasks in H.
    rewrite range_index_labelled, (index_where_none _ _ Hnone) in H.
    discriminate.
Qed.

End UpdateTwice.

(** * Stores read and rewritten through pandas *)

(** ** Lines that a rewrite leaves as they are *)

Module Written.

(** A line of attendance.csv as this program writes it: a name and a time
    that pandas keeps as text, and a day in the layout DD-MM-YYYY. *)
Definition attendance_line (l : Attendance.line) : Prop :=
  PandasText.keeps_text (Attendance.lName l) = true /\
  (exists d, Dates.parse_dmY (Attendance.lDate l) = Some d) /\
  PandasText.keeps_text (Attendance.lTime l) = true.

(** The status a new task gets: the field of the form, Pending when it is
    absent. *)
Definition status_of (status : option string) : string :=
  match status with
  | Some s => s
  | None => "Pending"
  end.

Definition is_day (s : string) : bool :=
  match Dates.parse_dmY s with
  | Some _ => true
  | None => false
  end.

(** A field that pandas reads as text whatever else its column holds. *)
Definition text (s : string) : bool := PandasText.keeps_text s || is_day s.

(** A line of tasks_local.csv as [assign_task] writes it for a user, a
    task and a status that pandas keeps as text. *)
Definition assigned_task (l : App.task_line) : bool :=
  PandasText.keeps_text (App.tl_user l) && text (App.tl_task l) &&
  PandasText.keeps_text (App.tl_status l) && is_day (App.tl_date l) &&
  PandasText.keeps_text (App.tl_time l) && PandasText.keeps_text (App.tl_created l).

(** A username of users.csv that is read as missing or as text. *)
Definition username (s : string) : bool :=
  Pandas.is_na_text s || PandasText.keeps_text s.

End Written.

Section KeptLines.
Import Pandas Attendance.

Lemma na_text_is_no_day (s : string) : is_na_text s = true -> Dates.parse_dmY s = None.
Proof.
  unfold is_na_text, STR_NA_VALUES. simpl.
  repeat (rewrite orb_true_iff; intros [H|H];
          [apply String.eqb_eq in H; subst; reflexivity | revert H]).
  discriminate.
Qed.

Lemma day_text_not_na (s : string) (d : Dates.date) :
  Dates.parse_dmY s = Some d -> is_na_text s = false.
Proof.
  intros H. destruct (is_na_text s) eqn:E; [|reflexivity].
  rewrite (na_text_is_no_day s E) in H. discriminate.
Qed.

Lemma write_read_kept (s : string) : is_na_text s = false -> write_cell (read_cell s) = s.
Proof. intros H. unfold read_cell. now rewrite H. Qed.

Lemma written_line_is_kept (l : line) : Written.attendance_line l -> rewritten l = l.
Proof.
  intros [Hn [[d Hd] Ht]]. destruct l as [n dt t]. cbn [lName lDate lTime] in *.
  unfold rewritten, write_row, read_line. cbn [Name Date Time lName lDate lTime].
  rewrite (write_read_kept n (keeps_text_not_na n Hn)).
  rewrite (write_read_kept dt (day_text_not_na dt d Hd)).
  rewrite (write_read_kept t (keeps_text_not_na t Ht)).
  reflexivity.
Qed.

Lemma rewritten_rewritten (l : line) : rewritten (rewritten l) = rewritten l.
Proof.
  unfold rewritten at 1 3. now rewrite read_rewritten.
Qed.

(** The file [f'] is [f], or [f] rewritten by pandas followed by lines
    that pandas keeps and that satisfy [P]. *)
Definition appended_to (P : line -> Prop) (f f' : list line) : Prop :=
  f' = f \/
  exists added, f' = map rewritten f ++ added /\
                Forall (fun a => rewritten a = a /\ P a) added.

Lemma appended_to_trans (P : line -> Prop) (f g h : list line) :
  appended_to P f g -> appended_to P g h -> appended_to P f h.
Proof.
  intros [-> | [a [-> Fa]]] [-> | [b [-> Fb]]].
  - now left.
  - right. now exists b.
  - right. now exists a.
  - right. exists (a ++ b). split.
    + rewrite map_app, map_map, <- app_assoc. f_equal.
      * apply map_ext. intros l. apply rewritten_rewritten.
      * f_equal. rewrite <- (map_id a) at 2. apply map_ext_in. intros l Hl.
        rewrite Forall_forall in Fa. exact (proj1 (Fa l Hl)).
    + apply Forall_app. now split.
Qed.

(** What an [appended_to] file keeps of the file it comes from. *)
Lemma appended_to_frame (P : line -> Prop) (f f' : list line) :
  appended_to P f f' ->
  exists earlier added,
    f' = earlier ++ added /\ length earlier = length f /\ Forall P added /\
    forall i l, nth_error f i = Some l -> Written.attendance_line l ->
                nth_error earlier i = Some l.
Proof.
  intros [-> | [added [-> Fa]]].
  - exists f, []. rewrite app_nil_r. repeat split; auto.
  - exists (map rewritten f), added. split; [reflexivity|].
    split; [apply length_map|]. split.
    + apply Forall_forall. intros a Ha. rewrite Forall_forall in Fa. exact (proj2 (Fa a Ha)).
    + intros i l Hi Hl. rewrite nth_error_map, Hi. cbn. f_equal.
      now apply written_line_is_kept.
Qed.

End KeptLines.

Section ProAppends.
Import Pandas Attendance AttendanceSystemPro.

Definition of_aman (l : line) : Prop := lName l = "Aman".

Lemma process_face_appended (uf : bool) (w : world) (f : face) :
  appended_to of_aman (csv w) (csv (process_face uf w f)).
Proof.
  destruct (process_face_stores uf w f) as [[E _] | [E _]].
  - left. exact E.
  - right. exists [record_of f]. split; [exact E|].
    constructor; [|constructor]. split; [apply rewritten_record | reflexivity].
Qed.

Lemma process_faces_appended (uf : bool) (fs : list face) :
  forall w, appended_to of_aman (csv w) (csv (process_faces uf w fs)).
Proof.
  unfold process_faces. induction fs as [|f fs IH]; intros w; cbn [fold_left].
  - now left.
  - eapply appended_to_trans; [apply process_face_appended | apply IH].
Qed.

Lemma main_loop_appended (uf : bool) (frames : list frame_input) :
  forall w, appended_to of_aman (csv w) (csv (snd (main_loop uf w frames))).
Proof.
  induction frames as [|fr frames IH]; intros w; cbn [main_loop].
  - now left.
  - destruct (grabbed fr) as [faces|]; [|now left].
    destruct (key_q fr); cbn [snd].
    + apply process_faces_appended.
    + eapply appended_to_trans; [apply process_faces_appended | apply IH].
Qed.

End ProAppends.

(** X4. The recognition loop only ever appends to attendance.csv: after
    any run the file is as many lines as before, followed by lines whose
    Name is Aman; and every earlier line that is as this program writes it
    (a name and a time pandas keeps as text, a day DD-MM-YYYY) is still at
    its place, unchanged. *)
Theorem pro_loop_only_appends :
  forall (uf : bool) (w : AttendanceSystemPro.world)
         (frames : list AttendanceSystemPro.frame_input),
    exists earlier added : list Attendance.line,
      AttendanceSystemPro.csv (snd (AttendanceSystemPro.main_loop uf w frames))
      = earlier ++ added /\
      length earlier = length (AttendanceSystemPro.csv w) /\
      Forall (fun l => Attendance.lName l = "Aman") added /\
      forall i l, nth_error (AttendanceSystemPro.csv w) i = Some l ->
                  Written.attendance_line l ->
                  nth_error earlier i = Some l.
Proof.
  intros uf w frames.
  exact (appended_to_frame of_aman _ _ (main_loop_appended uf frames w)).
Qed.

(** ** app.py: a manual mark, line by line *)

Section MarkedLines.
Import Pandas Attendance App.


End MarkedLines.



(** ** app.py: an update of tasks_local.csv, line by line *)

Section UpdatedLines.
Import Pandas App AppTasks.

(** The third case of an update, on the lines of the file. *)
Lemma update_last_owned_lines (user new_status : string) (pre post : list task_line)
    (l : task_line) :
  owned_by user l = true ->
  (forall l', In l' post -> owned_by user l' = false) ->
  update_task_local (Some (pre ++ l :: post)) user new_status
  = (true, Some (map rewritten_task pre
                   ++ write_task (set_status new_status (read_task l))
                   :: map rewritten_task post)).
Proof.
  intros Hl Hpost.
  unfold update_task_local, read_tasks.
  rewrite range_index_labelled, map_app. cbn [map].
  rewrite index_where_last.
  - cbv iota beta. cbn [Nat.add]. f_equal. f_equal.
    unfold tasks_to_csv.
    pose proof (at_set_position (set_status new_status) (read_task l)
                  (map read_task post) (map read_task pre) 0) as Hat.
    cbn [Nat.add] in Hat. rewrite Hat.
    rewrite map_app. cbn [map]. rewrite !map_map. reflexivity.
  - exact Hl.
  - intros r Hr. apply in_map_iff in Hr. destruct Hr as [l' [<- Hl']].
    apply (Hpost l' Hl').
Qed.

Lemma update_without_a_row (user new_status : string) (f : list task_line) :
  (forall l, In l f -> owned_by user l = false) ->
  update_task_local (Some f) user new_status = (false, Some f).
Proof.
  intros Hnone. unfold update_task_local, read_tasks.
  rewrite range_index_labelled, index_where_none; [reflexivity|].
  intros r Hr. apply in_map_iff in Hr. destruct Hr as [l [<- Hl]].
  rewrite <- owned_by_read. now apply Hnone.
Qed.

Lemma text_is_kept (s : string) : Written.text s = true -> write_cell (read_cell s) = s.
Proof.
  unfold Written.text, Written.is_day. intros H. apply write_read_kept.
  apply orb_true_iff in H. destruct H as [H|H].
  - now apply keeps_text_not_na.
  - destruct (Dates.parse_dmY s) as [d|] eqn:E; [|discriminate].
    now apply (day_text_not_na s d).
Qed.

Lemma kept_text_is_kept (s : string) :
  PandasText.keeps_text s = true -> write_cell (read_cell s) = s.
Proof. intros H. apply write_read_kept. now apply keeps_text_not_na. Qed.

Lemma written_task_is_kept (l : task_line) :
  Written.assigned_task l = true -> rewritten_task l = l.
Proof.
  unfold Written.assigned_task. rewrite !andb_true_iff.
  intros [[[[[Hu Ht] Hs] Hd] Hti] Hc].
  destruct l as [u t s d ti c].
  cbn [tl_user tl_task tl_status tl_date tl_time tl_created] in *.
  unfold rewritten_task, write_task, read_task.
  cbn [t_user t_task t_status t_date t_time t_created
       tl_user tl_task tl_status tl_date tl_time tl_created].
  rewrite (kept_text_is_kept u Hu), (text_is_kept t Ht), (kept_text_is_kept s Hs).
  rewrite (text_is_kept d), (kept_text_is_kept ti Hti), (kept_text_is_kept c Hc).
  - reflexivity.
  - unfold Written.text. now rewrite Hd, orb_true_r.
Qed.

Lemma written_tasks_are_kept (f : list task_line) :
  forallb Written.assigned_task f = true -> map rewritten_task f = f.
Proof.
  intros H. rewrite <- (map_id f) at 2. apply map_ext_in. intros l Hl.
  apply written_task_is_kept. rewrite forallb_forall in H. now apply H.
Qed.

(** The line of [l] with another status. *)
Definition status_set (new_status : string) (l : task_line) : task_line :=
  mkTaskLine (tl_user l) (tl_task l) new_status (tl_date l) (tl_time l) (tl_created l).

Lemma written_task_with_status (new_status : string) (l : task_line) :
  Written.assigned_task l = true ->
  write_task (set_status new_status (read_task l)) = status_set new_status l.
Proof.
  intros H. pose proof (written_task_is_kept l H) as K.
  unfold rewritten_task, write_task, read_task in K.
  cbn [t_user t_task t_status t_date t_time t_created] in K.
  unfold write_task, set_status, read_task, status_set.
  cbn [t_user t_task t_status t_date t_time t_created write_cell].
  destruct l as [u t s d ti c].
  cbn [tl_user tl_task tl_status tl_date tl_time tl_created] in *.
  injection K as -> -> _ -> -> ->. reflexivity.
Qed.

(** On a file of lines as [assign_task] writes them, an update changes
    the status field of the last line of the user and nothing else, and
    a user without a line leaves the file as it is. *)
Lemma update_on_written_file (user new_status : string) (pre post : list task_line)
    (l : task_line) :
  forallb Written.assigned_task (pre ++ l :: post) = true ->
  owned_by user l = true ->
  (forall l', In l' post -> owned_by user l' = false) ->
  update_task_local (Some (pre ++ l :: post)) user new_status
  = (true, Some (pre ++ status_set new_status l :: post)).
Proof.
  intros Hw Hl Hpost. rewrite (update_last_owned_lines user new_status pre post l Hl Hpost).
  rewrite forallb_app in Hw. apply andb_true_iff in Hw. destruct Hw as [Hpre Hrest].
  cbn [forallb] in Hrest. apply andb_true_iff in Hrest. destruct Hrest as [Hline Hpo].
  rewrite (written_tasks_are_kept pre Hpre), (written_tasks_are_kept post Hpo).
  now rewrite (written_task_with_status new_status l Hline).
Qed.

Lemma owned_by_rewritten (user : string) (l : task_line) :
  owned_by user (rewritten_task l) = owned_by user l.
Proof.
  unfold owned_by, rewritten_task, write_task, read_task.
  cbn [tl_user t_user]. now rewrite read_write_read.
Qed.

Lemma owned_by_updated (user new_status : string) (l : task_line) :
  owned_by user (write_task (set_status new_status (read_task l))) = owned_by user l.
Proof.
  unfold owned_by, write_task, set_status, read_task.
  cbn [tl_user t_user]. now rewrite read_write_read.
Qed.

Lemma rewritten_task_twice (l : task_line) :
  rewritten_task (rewritten_task l) = rewritten_task l.
Proof. unfold rewritten_task. now rewrite read_write_read_task. Qed.

Lemma updated_twice (s1 s2 : string) (l : task_line) :
  write_task (set_status s2 (read_task (write_task (set_status s1 (read_task l)))))
  = write_task (set_status s2 (read_task l)).
Proof. rewrite read_write_set_status. reflexivity. Qed.

End UpdatedLines.

(** The task of Meena reads N/A; Ravi has one task. *)
Definition tasks_with_a_note : list App.task_line :=
  [ App.mkTaskLine "meena" "N/A" "Pending" "04-11-2026" "09:15 AM" "2026-11-04T09:15:00";
    App.mkTaskLine "ravi" "report" "Pending" "04-11-2026" "09:15 AM" "2026-11-04T09:15:00" ].

(** A file of three tasks as [assign_task] writes them. *)
Definition three_tasks : list App.task_line :=
  [ task_of "ravi" "first" "Pending"; task_of "meena" "second" "In Progress";
    task_of "ravi" "third" "Pending" ].

(** C8. Ravi sets his task to Done while tasks_local.csv also holds a
    task of Meena whose text is N/A, as [assign_task] writes it. The
    update rewrites the whole file through pandas: the status of Ravi
    becomes Done, and the task field of Meena, a row of another user,
    becomes empty. *)
Theorem update_task_rewrites_another_row :
  snd (AppTasks.assign_task_local (Some []) (Some "meena") (Some "N/A") None noon noon
         "2026-11-04T12:05:09")
  = Some [ App.mkTaskLine "meena" "N/A" "Pending" "04-11-2026" "12:05 PM"
             "2026-11-04T12:05:09" ] /\
  App.update_task_local (Some tasks_with_a_note) "ravi" "Done"
  = (true,
     Some [ App.mkTaskLine "meena" "" "Pending" "04-11-2026" "09:15 AM" "2026-11-04T09:15:00";
            App.mkTaskLine "ravi" "report" "Done" "04-11-2026" "09:15 AM"
              "2026-11-04T09:15:00" ]).
Proof. split; reflexivity. Qed.

(** X12. The task just assigned is the one the employee updates: on a
    tasks_local.csv of lines as [assign_task] writes them, after an
    assignment to a user with a status, both kept as text by pandas, an
    update by that user is reported, leaves the former lines as they
    were and ends the file with one line of that user carrying the status
    sent and the date and time of the assignment. *)
Theorem assigned_task_is_the_one_updated :
  forall (f : list App.task_line) (user : string) (task status : option string)
         (now_d now_t : Clock.datetime) (created new_status : string),
    forallb Written.assigned_task f = true ->
    PandasText.keeps_text user = true ->
    PandasText.keeps_text (Written.status_of status) = true ->
    exists last,
      App.update_task_local
        (snd (AppTasks.assign_task_local (Some f) (Some user) task status
                now_d now_t created))
        user new_status
      = (true, Some (f ++ [last])) /\
      App.tl_user last = user /\
      App.tl_status last = new_status /\
      App.tl_date last = Clock.strftime_dmY now_d /\
      App.tl_time last = Clock.strftime_IMp now_t.
Proof.
  intros f user task status now_d now_t created new_status Hf Hu Hs.
  pose proof (keeps_text_not_na user Hu) as Hn.
  rewrite assign_task_appends, (written_tasks_are_kept f Hf).
  eexists. split.
  - rewrite update_last_owned_lines.
    + rewrite (written_tasks_are_kept f Hf). cbn [map]. reflexivity.
    + unfold owned_by. cbn [App.tl_user AppTasks.cell_of Pandas.write_cell].
      unfold Pandas.read_cell. rewrite Hn. cbn [Pandas.eq_str]. apply String.eqb_refl.
    + intros l' [].
  - unfold App.write_task, App.set_status, App.read_task.
    cbn [App.tl_user App.tl_status App.tl_date App.tl_time
         App.t_user App.t_status App.t_date App.t_time
         AppTasks.cell_of Pandas.write_cell].
    rewrite (write_read_kept user Hn).
    rewrite (write_read_kept _ (strftime_dmY_not_na now_d)).
    rewrite (write_read_kept _ (strftime_IMp_not_na now_t)).
    repeat split.
Qed.

Lemma assigned_task_is_the_one_updated_witness :
  exists last,
    App.update_task_local
      (snd (AppTasks.assign_task_local (Some three_tasks) (Some "ravi")
              (Some "audit") None noon noon "2026-11-04T12:05:09"))
      "ravi" "Done"
    = (true, Some (three_tasks ++ [last])) /\
    App.tl_user last = "ravi" /\
    App.tl_status last = "Done" /\
    App.tl_date last = Clock.strftime_dmY noon /\
    App.tl_time last = Clock.strftime_IMp noon.
Proof.
  apply (assigned_task_is_the_one_updated three_tasks "ravi" (Some "audit") None
           noon noon "2026-11-04T12:05:09" "Done"); reflexivity.
Defined.

(** X19. The status of a task is overwritten, not accumulated: on a
    tasks_local.csv of lines as [assign_task] writes them, when an update
    by a user with a status that pandas keeps as text succeeds, a second
    update by the same user succeeds too and leaves the file exactly as
    the second update alone would have left it, with as many lines as
    before. *)
Theorem second_update_wins :
  forall (f f1 : list App.task_line) (user s1 s2 : string),
    forallb Written.assigned_task f = true ->
    PandasText.keeps_text s1 = true ->
    App.update_task_local (Some f) user s1 = (true, Some f1) ->
    exists f2,
      App.update_task_local (Some f1) user s2 = (true, Some f2) /\
      App.update_task_local (Some f) user s2 = (true, Some f2) /\
      length f2 = length f.
Proof.
  intros f f1 user s1 s2 _ _ H1.
  destruct (last_owned user f (updated_means_owned user s1 f f1 H1))
    as [pre [l [post [-> [Hl Hpost]]]]].
  rewrite (update_last_owned_lines user s1 pre post l Hl Hpost) in H1.
  injection H1 as <-.
  assert (E : forall g, map rewritten_task (map rewritten_task g) = map rewritten_task g).
  { intros g. rewrite map_map. apply map_ext. intros a. apply rewritten_task_twice. }
  exists (map rewritten_task pre
            ++ App.write_task (App.set_status s2 (App.read_task l))
            :: map rewritten_task post).
  split; [|split].
  - rewrite update_last_owned_lines.
    + now rewrite updated_twice, !E.
    + now rewrite owned_by_updated.
    + intros l' Hin. apply in_map_iff in Hin. destruct Hin as [l0 [<- Hl0]].
      rewrite owned_by_rewritten. now apply Hpost.
  - now apply update_last_owned_lines.
  - rewrite !length_app. cbn [length]. now rewrite !length_map.
Qed.

Lemma second_update_wins_witness :
  exists f2,
    App.update_task_local
      (Some [ task_of "ravi" "first" "Pending"; task_of "meena" "second" "In Progress";
              task_of "ravi" "third" "Started" ])
      "ravi" "Done" = (true, Some f2) /\
    App.update_task_local (Some three_tasks) "ravi" "Done" = (true, Some f2) /\
    length f2 = length three_tasks.
Proof.
  apply (second_update_wins three_tasks
           [ task_of "ravi" "first" "Pending"; task_of "meena" "second" "In Progress";
             task_of "ravi" "third" "Started" ]
           "ravi" "Started" "Done"); reflexivity.
Defined.

(** ** app.py: the task history of a session *)

Section OwnTasks.
Import Pandas App AppHistory.

Lemma filter_map_length (A B : Type) (keep : B -> bool) (g : A -> B) (l : list A) :
  length (filter keep (map g l)) = length (filter (fun a => keep (g a)) l).
Proof.
  induction l as [|a l IH]; [reflexivity|].
  cbn [map filter]. destruct (keep (g a)); cbn [length]; now rewrite IH.
Qed.

Lemma history_length (sort_by_created : list task -> list task) (f : list task_line)
    (role user : string) :
  (forall l, Permutation (sort_by_created l) l) ->
  length (task_history_local sort_by_created (Some f) role user)
  = length (filter (fun l => shown role user (read_task l)) f).
Proof.
  intros Hsort. unfold task_history_local, read_tasks.
  rewrite values_range_index, length_map.
  rewrite (Permutation_length (filter_permutation _ (shown role user) _ _
                                 (Hsort (map read_task f)))).
  apply filter_map_length.
Qed.

End OwnTasks.

(** X17. The task history shows an employee their own tasks and nothing
    else: for a username that pandas keeps as text and whatever order the
    sort leaves among equal keys, a session whose role is not admin gets
    as many entries as tasks_local.csv has lines of that user, every entry
    with that user, and an admin gets one entry per line of the file. *)
Theorem task_history_shows_own_tasks :
  forall (sort_by_created : list App.task -> list App.task)
         (f : list App.task_line) (role user : string),
    (forall l, Permutation (sort_by_created l) l) ->
    PandasText.keeps_text user = true ->
    let out := AppHistory.task_history_local sort_by_created (Some f) role user in
    (role = "admin" -> length out = length f) /\
    (role <> "admin" ->
     length out = length (filter (fun l => String.eqb (App.tl_user l) user) f) /\
     Forall (fun e => AppHistory.e_user e = Pandas.Str user) out).
Proof.
  intros sort_by_created f role user Hsort Hu out.
  pose proof (keeps_text_not_na user Hu) as Hn.
  split.
  - intros ->. unfold out. rewrite (history_length _ _ _ _ Hsort).
    now rewrite (filter_all _ (fun l => AppHistory.shown "admin" user (App.read_task l))).
  - intros Hrole. apply String.eqb_neq in Hrole. split.
    + unfold out. rewrite (history_length _ _ _ _ Hsort). f_equal.
      apply filter_ext. intros l. unfold AppHistory.shown. rewrite Hrole.
      cbn [orb App.read_task App.t_user]. now apply eq_str_read_cell.
    + apply Forall_forall. intros e He.
      unfold out, AppHistory.task_history_local in He.
      apply in_map_iff in He. destruct He as [t [<- Ht]].
      apply filter_In in Ht. destruct Ht as [_ Ht].
      unfold AppHistory.shown in Ht. rewrite Hrole in Ht. cbn [orb] in Ht.
      cbn [AppHistory.entry_of AppHistory.e_user].
      destruct (App.t_user t) as [|s]; cbn [Pandas.eq_str] in Ht; [discriminate|].
      apply String.eqb_eq in Ht. now subst.
Qed.

Lemma task_history_shows_own_tasks_witness :
  length (AppHistory.task_history_local (fun l => l) (Some three_tasks) "employee" "ravi")
  = length (filter (fun l => String.eqb (App.tl_user l) "ravi") three_tasks) /\
  Forall (fun e => AppHistory.e_user e = Pandas.Str "ravi")
    (AppHistory.task_history_local (fun l => l) (Some three_tasks) "employee" "ravi").
Proof.
  refine (proj2 (task_history_shows_own_tasks (fun l => l) three_tasks "employee" "ravi"
                   _ eq_refl) _).
  - intros l. apply Permutation_refl.
  - discriminate.
Defined.

(** ** app.py: the users read from users.csv *)

(** A file where Ravi was added twice and one username reads as missing. *)
Definition users_with_repeats : list App.user_line :=
  [ App.mkUserLine "ravi" "Ravi K" "h:one" "03-11-2026";
    App.mkUserLine "null" "Nobody" "h:two" "03-11-2026";
    App.mkUserLine "meena" "Meena S" "h:three" "04-11-2026";
    App.mkUserLine "ravi" "Ravi Kumar" "h:four" "04-11-2026" ].

(** X9. On a users.csv whose usernames each read as missing or as text,
    [safe_read_users] returns rows that all have a username of the file,
    with pairwise different usernames, and every username of the file
    that is not missing is still among them. An absent file gives no
    row. *)
Theorem safe_read_users_is_deduplicated :
  forall f : list App.user_line,
    forallb (fun l => Written.username (App.ul_username l)) f = true ->
    let users := Pandas.values (App.safe_read_users (Some f)) in
    (forall r, In r users ->
               exists l, In l f /\ App.Username r = Pandas.Str (App.ul_username l)) /\
    NoDup (map App.Username users) /\
    (forall l, In l f -> Pandas.is_na_text (App.ul_username l) = false ->
               In (Pandas.Str (App.ul_username l)) (map App.Username users)) /\
    Pandas.values (App.safe_read_users None) = [].
Proof.
  intros f _ users. split; [|split; [|split]].
  - intros r Hr. destruct (safe_read_users_rows f r Hr) as [Hin Hna].
    apply in_map_iff in Hin. destruct Hin as [l [<- Hl]].
    exists l. split; [exact Hl|].
    unfold App.read_user in *. cbn [App.Username] in *.
    unfold Pandas.read_cell in *.
    destruct (Pandas.is_na_text (App.ul_username l)); [discriminate|reflexivity].
  - unfold users, Pandas.values, App.safe_read_users. rewrite map_map.
    apply drop_duplicates_last_NoDup.
  - intros l Hl Hna.
    assert (Hc : App.Username (App.read_user l) = Pandas.Str (App.ul_username l)).
    { unfold App.read_user. cbn [App.Username]. unfold Pandas.read_cell. now rewrite Hna. }
    rewrite <- Hc.
    unfold users, Pandas.values, App.safe_read_users. rewrite map_map.
    destruct (labelled_in _ (map App.read_user f) (App.read_user l)
                (in_map App.read_user f l Hl) 0) as [lbl Hin].
    apply (drop_duplicates_last_keeps _ (lbl, App.read_user l)).
    unfold App.dropna_username. apply filter_In. split.
    + exact Hin.
    + cbn [snd]. now rewrite Hc.
  - reflexivity.
Qed.

Lemma safe_read_users_is_deduplicated_witness :
  NoDup (map App.Username (Pandas.values (App.safe_read_users (Some users_with_repeats)))) /\
  In (Pandas.Str "meena")
     (map App.Username (Pandas.values (App.safe_read_users (Some users_with_repeats)))).
Proof.
  pose proof (safe_read_users_is_deduplicated users_with_repeats eq_refl) as H.
  split.
  - exact (proj1 (proj2 H)).
  - apply (proj1 (proj2 (proj2 H))
             (App.mkUserLine "meena" "Meena S" "h:three" "04-11-2026")).
    + right. right. left. reflexivity.
    + reflexivity.
Defined.

(** ** The Date column written by the program *)

(** X7. The dates the program writes read back as the same days: a Date
    column of texts written by [strftime("%d-%m-%Y")] on calendar days of
    the years 1678 to 2261 is parsed day-first into exactly those days,
    none of them NaT. *)
Theorem written_date_reads_back :
  forall ts : list Clock.datetime,
    Forall (fun t => Calendar.calendar_day t /\ 1678 <= Clock.year t <= 2261) ts ->
    map Dates.to_datetime_dayfirst
        (map (fun t => Pandas.read_cell (Clock.strftime_dmY t)) ts)
    = map (fun t => Some (Calendar.day_of t)) ts.
Proof.
  intros ts H. rewrite map_map. apply map_ext_in. intros t Ht.
  rewrite Forall_forall in H. destruct (H t Ht) as [Hday _].
  unfold Pandas.read_cell. rewrite strftime_dmY_not_na.
  cbn [Dates.to_datetime_dayfirst]. now apply parse_strftime.
Qed.

Lemma noon_is_in_range :
  Calendar.calendar_day noon /\ 1678 <= Clock.year noon <= 2261.
Proof.
  split; [exact noon_is_a_calendar_day|].
  unfold noon. cbn [Clock.year]. lia.
Qed.

Lemma written_date_reads_back_witness :
  map Dates.to_datetime_dayfirst
      (map (fun t => Pandas.read_cell (Clock.strftime_dmY t)) [noon; noon])
  = map (fun t => Some (Calendar.day_of t)) [noon; noon].
Proof.
  apply (written_date_reads_back [noon; noon]).
  apply Forall_cons; [exact noon_is_in_range|].
  apply Forall_cons; [exact noon_is_in_range|].
  apply Forall_nil.
Defined.

(** ** web_dashboard.py: the bulk upload *)

Definition sample_upload : WebDashboard.upload :=
  WebDashboard.mkUpload "extra.csv"
    (Some (WebDashboard.mkTable ["Time"; "Name"; "Note"; "Date"]
             [ [Pandas.Str "09:00 AM"; Pandas.Str "Ravi"; Pandas.NaN; Pandas.Str "02-11-2026"] ])).

(** X16. A bulk upload only appends: when no file is chosen, its name is
    empty, its reader raises or a column among Name, Date, Time is absent,
    attendance.csv is left as it is; otherwise the file keeps its number
    of earlier lines, every earlier line that is as this program writes it
    unchanged at its place, followed by one line per uploaded record, in
    order, with no check against the lines already there, so that the same
    upload sent twice adds its records twice. *)
Theorem upload_only_appends :
  forall (file : option (list Attendance.line)) (up : option WebDashboard.upload),
    ((forall n, fst (WebDashboard.upload_attendance file up) <> WebDashboard.Uploaded n) ->
     snd (WebDashboard.upload_attendance file up) = file) /\
    (forall u t,
        up = Some u -> WebDashboard.filename u <> "" ->
        WebDashboard.parsed u = Some t -> WebDashboard.has_columns t = true ->
        let added := map Attendance.write_row (WebDashboard.project t) in
        length added = length (WebDashboard.records t) /\
        (exists earlier,
            WebDashboard.upload_attendance file up
            = (WebDashboard.Uploaded (length (WebDashboard.records t)),
               Some (earlier ++ added)) /\
            length earlier = length (lines_of file) /\
            forall i l, nth_error (lines_of file) i = Some l ->
                        Written.attendance_line l ->
                        nth_error earlier i = Some l) /\
        (exists earlier,
            snd (WebDashboard.upload_attendance
                   (snd (WebDashboard.upload_attendance file up)) up)
            = Some (earlier ++ added) /\
            length earlier = length (lines_of file) + length (WebDashboard.records t))).
Proof.
  intros file up. split.
  - intros H. unfold WebDashboard.upload_attendance in *.
    destruct up as [u|]; [|reflexivity].
    destruct (App.is_empty (WebDashboard.filename u)); [reflexivity|].
    destruct (WebDashboard.parsed u) as [t|]; [|reflexivity].
    destruct (negb (WebDashboard.has_columns t)); [reflexivity|].
    exfalso. eapply H. reflexivity.
  - intros u t -> Hname Hparsed Hcols added.
    assert (Hlen : length added = length (WebDashboard.records t)).
    { unfold added, WebDashboard.project. now rewrite !length_map. }
    assert (Hone : forall file0,
               WebDashboard.upload_attendance file0 (Some u)
               = (WebDashboard.Uploaded (length (WebDashboard.records t)),
                  Some (map Attendance.rewritten (lines_of file0) ++ added))).
    { intros file0. unfold WebDashboard.upload_attendance.
      apply String.eqb_neq in Hname. unfold App.is_empty. rewrite Hname, Hparsed, Hcols.
      cbn [negb]. f_equal. f_equal. rewrite map_app. f_equal.
      unfold WebDashboard.read_attendance, Attendance.read_csv.
      destruct file0 as [f|]; [|reflexivity].
      rewrite values_range_index, map_map. reflexivity. }
    split; [exact Hlen|]. split.
    + exists (map Attendance.rewritten (lines_of file)).
      split; [apply Hone|]. split; [apply length_map|].
      intros i l Hi Hl. rewrite nth_error_map, Hi. cbn. f_equal.
      now apply written_line_is_kept.
    + rewrite (Hone file). cbn [snd]. rewrite Hone. cbn [snd lines_of].
      eexists. split; [reflexivity|].
      rewrite length_map, length_app, length_map, Hlen. reflexivity.
Qed.

Lemma upload_only_appends_witness :
  length (map Attendance.write_row
            (WebDashboard.project
               (WebDashboard.mkTable ["Time"; "Name"; "Note"; "Date"]
                  [ [Pandas.Str "09:00 AM"; Pandas.Str "Ravi"; Pandas.NaN;
                     Pandas.Str "02-11-2026"] ])))
  = 1.
Proof.
  refine (proj1 (proj2 (upload_only_appends (Some evening_file) (Some sample_upload))
                   sample_upload
                   (WebDashboard.mkTable ["Time"; "Name"; "Note"; "Date"]
                      [ [Pandas.Str "09:00 AM"; Pandas.Str "Ravi"; Pandas.NaN;
                         Pandas.Str "02-11-2026"] ])
                   eq_refl _ eq_refl eq_refl)).
  discriminate.
Defined.
